(** * To-Do API: users, bearer tokens and ownership-scoped task CRUD

    A shallow embedding of [app/schemas.py], [app/models.py], [app/crud.py]
    and the request handlers of [app/main.py], with the properties the
    specification states about them.

    Conventions of the embedding:
    - Python [int] and the integer columns are [Z]; instants ([datetime]) are
      [Z], a number of seconds; [str] is [string].
    - An attribute that may hold [None] (a nullable column, an [Optional]
      field) is an [option].
    - The database session is an explicit state: the two tables are lists of
      rows in table order, and every handler is a function from the state to
      an outcome and the state it leaves behind.
    - A Python [float] is an IEEE 754 double: a finite one is the rational it
      denotes, and every operation rounds its exact result to the nearest
      double, ties to even. *)

From Stdlib Require Import ZArith QArith Qabs List String Lia.
From Stdlib Require PrimFloat FloatOps SpecFloat Uint63.
From stdpp Require Import base decidable option list strings.

Close Scope Q_scope.
Local Open Scope string_scope.
Local Open Scope list_scope.
Local Open Scope Z_scope.

(** ** Python floats *)

(** A double: a finite value, an infinity or a NaN.  The sign of zero is not
    kept. *)
Inductive float :=
  | Finite (value : Q)
  | Infinity (negative : bool)
  | NaN.

(** The integer part of the binary logarithm of [a / b], for positive [a] and
    [b]. *)
Definition log2_floor (a b : Z) : Z :=
  let k := Z.log2 a - Z.log2 b in
  if (if 0 <=? k then b * 2 ^ k <=? a else b <=? a * 2 ^ (- k))
  then k else k - 1.

(** The integer nearest to [n / d], for positive [d]; a tie goes to the even
    one. *)
Definition round_half_even (n d : Z) : Z :=
  let q := n / d in
  let r := n mod d in
  if 2 * r <? d then q
  else if d <? 2 * r then q + 1
  else if Z.even q then q else q + 1.

(** [a / b], for positive [b], rounded to the nearest double: a multiple of
    [2 ^ e], where [e] leaves the 53 bits of the format to the mantissa and is
    no less than -1074, the exponent of the subnormal doubles; an infinity
    from [2 ^ 1024] on. *)
Definition round_fraction (a b : Z) : float :=
  if a =? 0 then Finite 0
  else
    let e := Z.max (-1074) (log2_floor (Z.abs a) b - 52) in
    let m := if e <=? 0 then round_half_even (Z.abs a * 2 ^ (- e)) b
             else round_half_even (Z.abs a) (b * 2 ^ e) in
    if (971 <? e) || ((e =? 971) && (2 ^ 53 <=? m)) then Infinity (a <? 0)
    else Finite (if e <=? 0 then Qmake (Z.sgn a * m) (Z.to_pos (2 ^ (- e)))
                 else inject_Z (Z.sgn a * m * 2 ^ e)).

Definition round_binary64 (x : Q) : float :=
  round_fraction (Qnum x) (Zpos (Qden x)).

(** [float(n)], as the interpreter converts the [int] operand of a mixed
    operation. *)
Definition float_of_int (n : Z) : float := round_fraction n 1.

(** [x * y] on floats *)
Definition fmul (x y : float) : float :=
  match x, y with
  | Finite p, Finite q => round_binary64 (p * q)
  | NaN, _ | _, NaN => NaN
  | Infinity s, Finite q | Finite q, Infinity s =>
      if Qnum q =? 0 then NaN else Infinity (xorb s (Qnum q <? 0))
  | Infinity s, Infinity s' => Infinity (xorb s s')
  end.

(** ** app/schemas.py *)

Inductive TaskStatus := TODO | IN_PROGRESS | COMPLETED.
Inductive TaskPriority := LOW | MEDIUM | HIGH.

#[global] Instance TaskStatus_eq_dec : EqDecision TaskStatus.
Proof. solve_decision. Defined.
#[global] Instance TaskPriority_eq_dec : EqDecision TaskPriority.
Proof. solve_decision. Defined.

(** [TaskBase]/[TaskCreate]: [status] and [priority] are not [Optional], so a
    validated body always carries one of the three values. *)
Module TaskCreate.
Record t := mk {
  title : string;
  description : option string;
  status : TaskStatus;
  priority : TaskPriority;
  due_date : option Z
}.
End TaskCreate.

(** [TaskUpdate]: every field is [Optional] with default [None].  A field is
    either unset (outer [None]), or set by the request body, where an explicit
    JSON [null] is accepted and gives [Some None]. *)
Module TaskUpdate.
Record t := mk {
  title : option (option string);
  description : option (option string);
  status : option (option TaskStatus);
  priority : option (option TaskPriority);
  due_date : option (option Z)
}.
End TaskUpdate.

Module TaskSummary.
Record t := mk {
  total_tasks : Z;
  completed_tasks : Z;
  in_progress_tasks : Z;
  todo_tasks : Z;
  completion_rate : float
}.
End TaskSummary.

Module UserCreate.
Record t := mk {
  username : string;
  email : string;
  password : string
}.
End UserCreate.

Module TokenData.
Record t := mk { username : option string }.
End TokenData.

(** ** app/models.py *)

Module User.
Record t := mk {
  id : Z;
  username : string;
  email : string;
  hashed_password : string;
  is_active : bool;
  created_at : Z;
  updated_at : Z
}.
End User.

(** [status], [priority], [description], [due_date] and [completed_at] are
    nullable columns; [title] and [user_id] are [nullable=False]. *)
Module Task.
Record t := mk {
  id : Z;
  user_id : Z;
  title : string;
  description : option string;
  status : option TaskStatus;
  priority : option TaskPriority;
  due_date : option Z;
  completed_at : option Z;
  created_at : Z;
  updated_at : Z
}.

#[global] Instance eq_dec : EqDecision t.
Proof. solve_decision. Defined.
End Task.

(** ** The session and what a call can do to it *)

(** The two tables, with the counters behind the autoincrement keys. *)
Record DB := mkDB {
  users : list User.t;
  tasks : list Task.t;
  users_id_seq : Z;
  tasks_id_seq : Z
}.

(** What a request reads from outside the database: the Python clock
    ([datetime.utcnow()]), the database clock ([func.now()]) and the salt the
    hasher draws. *)
Record Env := mkEnv {
  utcnow : Z;
  db_now : Z;
  salt : Z
}.

Inductive Exception :=
  | HTTPException (status_code : Z) (detail : string)
  | AttributeError
  | IntegrityError
  | ResponseValidationError
  | ZeroDivisionError
  | OverflowError.

Inductive Outcome (A : Type) :=
  | Return (a : A)
  | Raise (e : Exception).
Arguments Return {A} a.
Arguments Raise {A} e.

(** A computation on the session.  A raised exception leaves the database as
    the commits before it left it. *)
Definition M (A : Type) : Type := DB -> Outcome A * DB.

Definition ret {A} (a : A) : M A := fun db => (Return a, db).
Definition raise {A} (e : Exception) : M A := fun db => (Raise e, db).
Definition bind {A B} (m : M A) (k : A -> M B) : M B :=
  fun db =>
    match m db with
    | (Return a, db') => k a db'
    | (Raise e, db') => (Raise e, db')
    end.
Definition query {A} (f : DB -> A) : M A := fun db => (Return (f db), db).
(** A read of the session that may raise. *)
Definition attempt {A} (f : DB -> Outcome A) : M A := fun db => (f db, db).

Notation "x <- m ;; k" := (bind m (fun x => k))
  (at level 100, m at next level, right associativity).

(** The status code a client sees: the route's own code on return, the
    exception's code for an [HTTPException], 500 for anything unhandled. *)
Definition http_status {A} (success : Z) (o : Outcome A) : Z :=
  match o with
  | Return _ => success
  | Raise (HTTPException c _) => c
  | Raise _ => 500
  end.

(** ** app/security.py: the credential hasher

    [get_password_hash] and [verify_password] are imported from
    [app/security.py]; the callers below are stated over any
    implementation of the two. *)
Class Hasher := {
  get_password_hash : Z -> string -> string;
  verify_password : string -> string -> bool
}.

(** ** app/config.py *)

Module Settings.
Record t := mk {
  secret_key : string;
  algorithm : string;
  access_token_expire_minutes : Z
}.

(** The class defaults; the environment may override each of them. *)
Definition default : t :=
  mk "your-secret-key-change-in-production" "HS256" 30.
End Settings.

(** ** app/crud.py *)

(** [task_update.model_dump(exclude_unset=True)]: a dict whose keys are among
    the five fields of [TaskUpdate], to which [update_task] may add
    ["completed_at"].  An absent key is [None]; a key bound to Python's [None]
    is [Some None]. *)
Module update_data.
Record t := mk {
  title : option (option string);
  description : option (option string);
  status : option (option TaskStatus);
  priority : option (option TaskPriority);
  due_date : option (option Z);
  completed_at : option (option Z)
}.

Definition model_dump (u : TaskUpdate.t) : t :=
  mk (TaskUpdate.title u) (TaskUpdate.description u) (TaskUpdate.status u)
     (TaskUpdate.priority u) (TaskUpdate.due_date u) None.

(** [update_data["completed_at"] = v] *)
Definition set_completed_at (v : option Z) (d : t) : t :=
  mk (title d) (description d) (status d) (priority d) (due_date d) (Some v).

(** ["k" in update_data] *)
Definition contains {A} (entry : option A) : bool :=
  match entry with Some _ => true | None => false end.

(** [update_data["k"] == v], for a key that is present *)
Definition holds {A} `{EqDecision A} (entry : option A) (v : A) : bool :=
  bool_decide (entry = Some v).

(** [setattr(task, "k", update_data["k"])] when the key is present; the
    attribute keeps its value otherwise. *)
Definition setattr {A} (entry : option A) (old : A) : A :=
  match entry with Some v => v | None => old end.
End update_data.

(** [sum(...)] over a list of integers, from 0, left to right. *)
Definition sum (l : list Z) : Z := fold_left Z.add l 0.

(** [a / b] on two [int]s: the quotient rounded once to the nearest double.
    It raises [ZeroDivisionError] on a zero divisor and [OverflowError] when
    the quotient is too large for a double. *)
Definition truediv (a b : Z) : Outcome float :=
  if b =? 0 then Raise ZeroDivisionError
  else
    match round_fraction (Z.sgn b * a) (Z.abs b) with
    | Infinity _ => Raise OverflowError
    | q => Return q
    end.

Module crud.
Section crud.
Context `{Hasher}.
Variable env : Env.

(** The [INSERT] fails on the [unique=True] columns [username] and
    [email]. *)
Definition create_user (user : UserCreate.t) : M User.t := fun db =>
  let db_user :=
    User.mk (users_id_seq db + 1)
            (UserCreate.username user)
            (UserCreate.email user)
            (get_password_hash (salt env) (UserCreate.password user))
            true (db_now env) (db_now env) in
  if existsb (fun u => (User.username u =? User.username db_user)%string
                       || (User.email u =? User.email db_user)%string)
             (users db)
  then (Raise IntegrityError, db)
  else (Return db_user,
        mkDB (users db ++ [db_user]) (tasks db)
             (users_id_seq db + 1) (tasks_id_seq db)).

Definition get_user (user_id : Z) (db : DB) : option User.t :=
  find (fun u => User.id u =? user_id) (users db).

(** [username] is a [str] at the login call and [TokenData.username], an
    [Optional[str]], at the others; the column is not nullable, so [None]
    matches no row. *)
Definition get_user_by_username (username : option string) (db : DB)
  : option User.t :=
  match username with
  | Some username =>
      find (fun u => (User.username u =? username)%string) (users db)
  | None => None
  end.

Definition get_user_by_email (email : string) (db : DB) : option User.t :=
  find (fun u => (User.email u =? email)%string) (users db).

Definition create_task (user_id : Z) (task : TaskCreate.t) : M Task.t :=
  fun db =>
  let db_task :=
    Task.mk (tasks_id_seq db + 1)
            user_id
            (TaskCreate.title task)
            (TaskCreate.description task)
            (Some (TaskCreate.status task))
            (Some (TaskCreate.priority task))
            (TaskCreate.due_date task)
            None
            (db_now env) (db_now env) in
  (Return db_task,
   mkDB (users db) (tasks db ++ [db_task])
        (users_id_seq db) (tasks_id_seq db + 1)).

Definition get_task (task_id : Z) (db : DB) : option Task.t :=
  find (fun t => Task.id t =? task_id) (tasks db).

Definition get_user_tasks (user_id : Z) (status : option TaskStatus)
                          (db : DB) : list Task.t :=
  let query := List.filter (fun t => Task.user_id t =? user_id) (tasks db) in
  let query :=
    match status with
    | Some status =>
        List.filter (fun t => bool_decide (Task.status t = Some status)) query
    | None => query
    end in
  query.

(** The attributes of [task] after the [setattr] loop.  [title] may now be
    [None], which the row cannot hold. *)
Definition assigned (task : Task.t) (d : update_data.t)
  : option string * Task.t :=
  (update_data.setattr (update_data.title d) (Some (Task.title task)),
   Task.mk (Task.id task)
           (Task.user_id task)
           (Task.title task)
           (update_data.setattr (update_data.description d) (Task.description task))
           (update_data.setattr (update_data.status d) (Task.status task))
           (update_data.setattr (update_data.priority d) (Task.priority task))
           (update_data.setattr (update_data.due_date d) (Task.due_date task))
           (update_data.setattr (update_data.completed_at d) (Task.completed_at task))
           (Task.created_at task)
           (Task.updated_at task)).

Definition with_title (title : string) (t : Task.t) : Task.t :=
  Task.mk (Task.id t) (Task.user_id t) title (Task.description t)
          (Task.status t) (Task.priority t) (Task.due_date t)
          (Task.completed_at t) (Task.created_at t) (Task.updated_at t).

Definition with_updated_at (now : Z) (t : Task.t) : Task.t :=
  Task.mk (Task.id t) (Task.user_id t) (Task.title t) (Task.description t)
          (Task.status t) (Task.priority t) (Task.due_date t)
          (Task.completed_at t) (Task.created_at t) now.

(** [UPDATE tasks SET ... WHERE tasks.id = :id] *)
Definition update_row (row : Task.t) (db : DB) : DB :=
  mkDB (users db)
       (map (fun t => if Task.id t =? Task.id row then row else t) (tasks db))
       (users_id_seq db) (tasks_id_seq db).

(** [DELETE FROM tasks WHERE tasks.id = :id] *)
Definition delete_row (task_id : Z) (db : DB) : DB :=
  mkDB (users db)
       (List.filter (fun t => negb (Task.id t =? task_id)) (tasks db))
       (users_id_seq db) (tasks_id_seq db).

(** [task] is the object [get_task] loaded.  The commit fails when
    [title], a [nullable=False] column, was assigned [None]; it writes
    nothing when no attribute changed, and otherwise writes the row with
    [updated_at] taken from [onupdate=func.now()]. *)
Definition update_task (task : Task.t) (task_update : TaskUpdate.t)
  : M Task.t := fun db =>
  let update_data := update_data.model_dump task_update in
  let update_data :=
    if update_data.contains (update_data.status update_data)
       && update_data.holds (update_data.status update_data) (Some COMPLETED)
    then update_data.set_completed_at (Some (utcnow env)) update_data
    else if update_data.contains (update_data.status update_data)
            && negb (update_data.holds (update_data.status update_data)
                                       (Some COMPLETED))
    then update_data.set_completed_at None update_data
    else update_data in
  match assigned task update_data with
  | (None, _) => (Raise IntegrityError, db)
  | (Some title, attrs) =>
      let row := with_title title attrs in
      if bool_decide (row = task) then (Return task, db)
      else
        let row := with_updated_at (db_now env) row in
        (Return row, update_row row db)
  end.

Definition delete_task (task : Task.t) : M unit := fun db =>
  (Return tt, delete_row (Task.id task) db).

(** The dict is built entry by entry; the last entry divides only under its
    guard, and holds the [int] 0 otherwise, which is the float 0 once it is
    read as a [completion_rate]. *)
Definition get_task_summary (user_id : Z) (db : DB) : Outcome TaskSummary.t :=
  let tasks := get_user_tasks user_id None db in
  let total := Z.of_nat (length tasks) in
  let completed :=
    sum (map (fun _ => 1)
           (List.filter (fun t => bool_decide (Task.status t = Some COMPLETED)) tasks)) in
  let in_progress :=
    sum (map (fun _ => 1)
           (List.filter (fun t => bool_decide (Task.status t = Some IN_PROGRESS)) tasks)) in
  let todo :=
    sum (map (fun _ => 1)
           (List.filter (fun t => bool_decide (Task.status t = Some TODO)) tasks)) in
  match (if 0 <? total
         then match truediv completed total with
              | Return q => Return (fmul q (float_of_int 100))
              | Raise e => Raise e
              end
         else Return (float_of_int 0)) with
  | Return completion_rate =>
      Return (TaskSummary.mk total completed in_progress todo completion_rate)
  | Raise e => Raise e
  end.
End crud.
End crud.

(** ** app/security.py: the token service *)

Module security.
(** Modelled from the spec: [app/security.py] is not among the sources, so
    [create_access_token] and the validation behind [get_current_user]
    follow section 4.2 of the specification.  A token embeds a subject and
    an absolute expiry and carries a signature segment computed from them
    with the process-wide secret; the wire format is left open, so a
    presented token is either unparseable or parses into those parts. *)
Record Claims := mkClaims { sub : string; exp : Z }.

Inductive Token :=
  | Malformed (raw : string)
  | Signed (claims : Claims) (signature : list Byte.byte).

Inductive TokenError := InvalidToken | BadSignature | Expired.

(** Modelled from the spec: the signature scheme ("HMAC-class or better"),
    a function of the secret and the signed claims. *)
Class Signer := { sign : string -> Claims -> list Byte.byte }.

#[global] Instance byte_eq_dec : EqDecision Byte.byte := Byte.byte_eq_dec.

Section token_service.
Context `{Signer}.
Variable secret_key : string.

(** Modelled from the spec: [issue(subject, ttl)], "an absolute expiry =
    now + ttl, signed with a process-wide secret key". *)
Definition create_access_token (subject : string) (expires_delta : Z)
                               (now : Z) : Token :=
  let claims := mkClaims subject (now + expires_delta) in
  Signed claims (sign secret_key claims).

(** Modelled from the spec: [validate(token)] fails with [InvalidToken]
    (malformed), [BadSignature] (tampered or wrong key) or [Expired]
    (current time >= embedded expiry), in the order the specification
    lists them, and returns the subject otherwise. *)
Definition validate (now : Z) (token : Token) : TokenError + string :=
  match token with
  | Malformed _ => inl InvalidToken
  | Signed claims signature =>
      if bool_decide (signature = sign secret_key claims)
      then if exp claims <=? now then inl Expired else inr (sub claims)
      else inl BadSignature
  end.

(** Modelled from the spec: every validation failure maps to 401; the
    subject of a valid token becomes the request's [TokenData]. *)
Definition get_current_user (now : Z) (token : Token)
  : Outcome TokenData.t :=
  match validate now token with
  | inr subject => Return (TokenData.mk (Some subject))
  | inl _ => Raise (HTTPException 401 "Could not validate credentials")
  end.
End token_service.
End security.

(** ** app/main.py *)

(** [response_model=TaskResponse]: [status] and [priority] are required
    there, so a row that holds [NULL] in one of them does not serialise. *)
Module TaskResponse.
Record t := mk {
  title : string;
  description : option string;
  status : TaskStatus;
  priority : TaskPriority;
  due_date : option Z;
  id : Z;
  user_id : Z;
  completed_at : option Z;
  created_at : Z;
  updated_at : Z
}.

Definition model_validate (task : Task.t) : M t :=
  match Task.status task, Task.priority task with
  | Some status, Some priority =>
      ret (mk (Task.title task) (Task.description task) status priority
              (Task.due_date task) (Task.id task) (Task.user_id task)
              (Task.completed_at task) (Task.created_at task)
              (Task.updated_at task))
  | _, _ => raise ResponseValidationError
  end.

Fixpoint model_validate_list (l : list Task.t) : M (list t) :=
  match l with
  | [] => ret []
  | task :: l =>
      r <- model_validate task ;;
      rs <- model_validate_list l ;;
      ret (r :: rs)
  end.
End TaskResponse.

Module Token.
Record t := mk { access_token : security.Token; token_type : string }.
End Token.

(** [timedelta(minutes=m)], in seconds *)
Definition timedelta_minutes (m : Z) : Z := m * 60.

Module main.
Section main.
Context `{Hasher} `{security.Signer}.
Variable settings : Settings.t.
Variable env : Env.

Definition register (user : UserCreate.t) : M User.t :=
  db_user <- query (crud.get_user_by_username (Some (UserCreate.username user))) ;;
  match db_user with
  | Some _ => raise (HTTPException 400 "Username already registered")
  | None =>
      db_user <- query (crud.get_user_by_email (UserCreate.email user)) ;;
      match db_user with
      | Some _ => raise (HTTPException 400 "Email already registered")
      | None => crud.create_user env user
      end
  end.

Definition login (username password : string) : M Token.t :=
  user <- query (crud.get_user_by_username (Some username)) ;;
  match user with
  | None => raise (HTTPException 401 "Incorrect username or password")
  | Some user =>
      if negb (verify_password password (User.hashed_password user))
      then raise (HTTPException 401 "Incorrect username or password")
      else
        let access_token_expires :=
          timedelta_minutes (Settings.access_token_expire_minutes settings) in
        let access_token :=
          security.create_access_token (Settings.secret_key settings)
            (User.username user) access_token_expires (utcnow env) in
        ret (Token.mk access_token "bearer")
  end.

Definition create_task (task : TaskCreate.t) (current_user : TokenData.t)
  : M TaskResponse.t :=
  user <- query (crud.get_user_by_username (TokenData.username current_user)) ;;
  match user with
  | None => raise (HTTPException 404 "User not found")
  | Some user =>
      task <- crud.create_task env (User.id user) task ;;
      TaskResponse.model_validate task
  end.

(** The parameter [status] hides the module [fastapi.status] in this
    handler, so [status.HTTP_404_NOT_FOUND] is an attribute access on [None]
    or on a [TaskStatus], which raises [AttributeError]. *)
Definition list_tasks (status : option TaskStatus)
                      (current_user : TokenData.t)
  : M (list TaskResponse.t) :=
  user <- query (crud.get_user_by_username (TokenData.username current_user)) ;;
  match user with
  | None => raise AttributeError
  | Some user =>
      tasks <- query (crud.get_user_tasks (User.id user) status) ;;
      TaskResponse.model_validate_list tasks
  end.

(** [user.id] on a [user] that is [None] raises [AttributeError]. *)
Definition get_task (task_id : Z) (current_user : TokenData.t)
  : M TaskResponse.t :=
  task <- query (crud.get_task task_id) ;;
  match task with
  | None => raise (HTTPException 404 "Task not found")
  | Some task =>
      user <- query (crud.get_user_by_username (TokenData.username current_user)) ;;
      match user with
      | None => raise AttributeError
      | Some user =>
          if negb (Task.user_id task =? User.id user)
          then raise (HTTPException 403 "Not authorized")
          else TaskResponse.model_validate task
      end
  end.

Definition update_task (task_id : Z) (task_update : TaskUpdate.t)
                       (current_user : TokenData.t)
  : M TaskResponse.t :=
  task <- query (crud.get_task task_id) ;;
  match task with
  | None => raise (HTTPException 404 "Task not found")
  | Some task =>
      user <- query (crud.get_user_by_username (TokenData.username current_user)) ;;
      match user with
      | None => raise AttributeError
      | Some user =>
          if negb (Task.user_id task =? User.id user)
          then raise (HTTPException 403 "Not authorized")
          else
            task <- crud.update_task env task task_update ;;
            TaskResponse.model_validate task
      end
  end.

Definition delete_task (task_id : Z) (current_user : TokenData.t)
  : M unit :=
  task <- query (crud.get_task task_id) ;;
  match task with
  | None => raise (HTTPException 404 "Task not found")
  | Some task =>
      user <- query (crud.get_user_by_username (TokenData.username current_user)) ;;
      match user with
      | None => raise AttributeError
      | Some user =>
          if negb (Task.user_id task =? User.id user)
          then raise (HTTPException 403 "Not authorized")
          else crud.delete_task task
      end
  end.

Definition get_task_summary (current_user : TokenData.t)
  : M TaskSummary.t :=
  user <- query (crud.get_user_by_username (TokenData.username current_user)) ;;
  match user with
  | None => raise (HTTPException 404 "User not found")
  | Some user =>
      summary <- attempt (crud.get_task_summary (User.id user)) ;;
      ret summary
  end.

Definition get_current_user_info (current_user : TokenData.t) : M User.t :=
  user <- query (crud.get_user_by_username (TokenData.username current_user)) ;;
  match user with
  | None => raise (HTTPException 404 "User not found")
  | Some user => ret user
  end.
End main.
End main.

(** ** What the specification says, as predicates on the model *)

(** Section 3: [completed_at] is non-null if and only if the status is
    [completed]. *)
Definition completed_at_invariant (t : Task.t) : Prop :=
  is_Some (Task.completed_at t) <-> Task.status t = Some COMPLETED.

(** The number of rows of a table that satisfy [p]. *)
Fixpoint count_rows {A} (p : A -> bool) (l : list A) : Z :=
  match l with
  | [] => 0
  | x :: l => (if p x then 1 else 0) + count_rows p l
  end.

Definition owned_by (user_id : Z) (t : Task.t) : bool :=
  Task.user_id t =? user_id.

Definition owned_with_status (user_id : Z) (s : option TaskStatus)
                             (t : Task.t) : bool :=
  (Task.user_id t =? user_id) && bool_decide (Task.status t = s).

(** What a successful [crud.update_task] leaves in [completed_at]. *)
Definition expected_completed_at (env : Env) (old : option Z)
                                 (status : option (option TaskStatus))
  : option Z :=
  match status with
  | None => old
  | Some (Some COMPLETED) => Some (utcnow env)
  | Some _ => None
  end.

(** A field of the partial update: the value it carries when present, the
    prior value when absent. *)
Definition expected_field {A} (entry : option A) (old : A) : A :=
  match entry with
  | Some v => v
  | None => old
  end.

(** The row a successful update assigns, before [updated_at]. *)
Definition assigned_row (env : Env) (task : Task.t) (u : TaskUpdate.t) (title : string)
  : Task.t :=
  Task.mk (Task.id task) (Task.user_id task) title
          (expected_field (TaskUpdate.description u) (Task.description task))
          (expected_field (TaskUpdate.status u) (Task.status task))
          (expected_field (TaskUpdate.priority u) (Task.priority task))
          (expected_field (TaskUpdate.due_date u) (Task.due_date task))
          (expected_completed_at env (Task.completed_at task)
                                 (TaskUpdate.status u))
          (Task.created_at task) (Task.updated_at task).

(** Section 7: a computation that, when it fails, leaves the session as it
    found it. *)
Definition fails_cleanly {A} (m : M A) : Prop :=
  forall db e db', m db = (Raise e, db') -> db' = db.

(** Section 3: the completion rate in exact arithmetic. *)
Definition exact_rate (completed total : Z) : Q :=
  (inject_Z completed / inject_Z total * inject_Z 100)%Q.

(** The rate as the two float operations of [get_task_summary] give it. *)
Definition float_rate (completed total : Z) : option Q :=
  match truediv completed total with
  | Return q =>
      match fmul q (float_of_int 100) with
      | Finite r => Some r
      | _ => None
      end
  | Raise _ => None
  end.

(** The same rate on the doubles of the machine, read back as a rational. *)
Definition SF2Q (f : SpecFloat.spec_float) : option Q :=
  match f with
  | SpecFloat.S754_zero _ => Some 0%Q
  | SpecFloat.S754_finite s m e =>
      Some (if e <=? 0
            then Qmake ((if s then -1 else 1) * Zpos m) (Z.to_pos (2 ^ (- e)))
            else inject_Z ((if s then -1 else 1) * Zpos m * 2 ^ e))
  | _ => None
  end.

Definition machine_rate (completed total : Z) : option Q :=
  SF2Q (FloatOps.Prim2SF
          (PrimFloat.mul
             (PrimFloat.div (PrimFloat.of_uint63 (Uint63.of_Z completed))
                            (PrimFloat.of_uint63 (Uint63.of_Z total)))
             (PrimFloat.of_uint63 (Uint63.of_Z 100)))).

Definition rates_agree (completed total : Z) : bool :=
  match machine_rate completed total, float_rate completed total with
  | Some x, Some y => Qeq_bool x y
  | _, _ => false
  end.

(** The pairs [(c, t)] with [0 <= c <= t] and [1 <= t <= n]. *)
Definition fractions_up_to (n : nat) : list (Z * Z) :=
  flat_map (fun t => map (fun c => (Z.of_nat c, Z.of_nat (S t))) (seq 0 (S (S t))))
           (seq 0 n).

(** ** Well-formed stores *)

(** What the table definitions of [app/models.py] guarantee of a store: the
    primary keys are unique and were drawn from the sequences, and
    [username] and [email] are [unique=True]. *)
Definition wf_db (db : DB) : Prop :=
  List.NoDup (map Task.id (tasks db))
  /\ Forall (fun t => Task.id t <= tasks_id_seq db) (tasks db)
  /\ List.NoDup (map User.id (users db))
  /\ Forall (fun u => User.id u <= users_id_seq db) (users db)
  /\ List.NoDup (map User.username (users db))
  /\ List.NoDup (map User.email (users db)).

(** A row that [TaskResponse] cannot serialise. *)
Definition unserialisable (t : Task.t) : Prop :=
  Task.status t = None \/ Task.priority t = None.

(** The body [{}] of a [PUT]: no field set. *)
Definition no_fields : TaskUpdate.t := TaskUpdate.mk None None None None None.

(** A response read back as the row it shows. *)
Definition row_of (r : TaskResponse.t) : Task.t :=
  Task.mk (TaskResponse.id r) (TaskResponse.user_id r) (TaskResponse.title r)
          (TaskResponse.description r) (Some (TaskResponse.status r))
          (Some (TaskResponse.priority r)) (TaskResponse.due_date r)
          (TaskResponse.completed_at r) (TaskResponse.created_at r)
          (TaskResponse.updated_at r).

(** What one user sees of the store: the listings under every filter, and
    the summary. *)
Definition same_view (user_id : Z) (db db' : DB) : Prop :=
  (forall status, crud.get_user_tasks user_id status db'
                  = crud.get_user_tasks user_id status db)
  /\ crud.get_task_summary user_id db' = crud.get_task_summary user_id db.

(** ** Sample implementations and requests *)

Module sample.
(** A hasher and a signer to run the handlers on; neither is secure. *)
Definition hasher : Hasher :=
  {| get_password_hash := fun _ p => String.append "$" p;
     verify_password := fun p h => String.eqb (String.append "$" p) h |}.

Definition signer : security.Signer :=
  {| security.sign := fun k c =>
       list_byte_of_string (String.append k (security.sub c)) |}.

Definition env0 : Env := mkEnv 1000 1001 7.
Definition env1 : Env := mkEnv 2000 2001 8.

Definition empty : DB := mkDB [] [] 0 0.

Definition alice : UserCreate.t :=
  UserCreate.mk "alice" "alice@x.com" "password123".
Definition bob : UserCreate.t :=
  UserCreate.mk "bob" "bob@x.com" "hunter2hunter2".

Definition alice_token : TokenData.t := TokenData.mk (Some "alice").
Definition bob_token : TokenData.t := TokenData.mk (Some "bob").
Definition ghost_token : TokenData.t := TokenData.mk (Some "mallory").

(** alice and bob registered *)
Definition db_users : DB :=
  snd (main.register (H:=hasher) env0 bob
         (snd (main.register (H:=hasher) env0 alice empty))).

Definition task_T (status : TaskStatus) : TaskCreate.t :=
  TaskCreate.mk "T" None status MEDIUM None.

(** alice owns task 1 (todo) and task 2 (todo) *)
Definition db_tasks : DB :=
  snd (main.create_task env0 (task_T TODO) alice_token
         (snd (main.create_task env0 (task_T TODO) alice_token db_users))).

Definition set_status (s : option TaskStatus) : TaskUpdate.t :=
  TaskUpdate.mk None None (Some s) None None.
Definition set_title (s : option string) : TaskUpdate.t :=
  TaskUpdate.mk (Some s) None None None None.

(** task 1 as [db_tasks] holds it, and as completing it in [env1] leaves it *)
Definition task1 : Task.t :=
  Task.mk 1 1 "T" None (Some TODO) (Some MEDIUM) None None 1001 1001.
Definition task1_completed : Task.t :=
  Task.mk 1 1 "T" None (Some COMPLETED) (Some MEDIUM) None (Some 2000) 1001 2001.

(** task 1 marked completed *)
Definition db_one_completed : DB :=
  snd (main.update_task env1 1 (set_status (Some COMPLETED)) alice_token
         db_tasks).

(** task 1 sent [{"status": null}] *)
Definition db_null_status : DB :=
  snd (main.update_task env1 1 (set_status None) alice_token db_tasks).

(** alice owns twenty tasks, the first eleven of them completed *)
Definition db_11_of_20 : DB :=
  mkDB (users db_users)
       (map (fun i =>
               Task.mk i 1 "T" None
                       (Some (if i <=? 11 then COMPLETED else TODO))
                       (Some MEDIUM) None
                       (if i <=? 11 then Some 2000 else None) 1001 1001)
            (map Z.of_nat (seq 1 20)))
       2 20.

(** alice's row, and the store right after she registered *)
Definition alice_row : User.t :=
  User.mk 1 "alice" "alice@x.com" "$password123" true 1001 1001.
Definition db_alice : DB :=
  snd (main.register (H:=hasher) env0 alice empty).
End sample.

(** * Properties *)

(** ** Running a handler *)

Lemma bind_query {A B} (f : DB -> A) (k : A -> M B) (db : DB) :
  bind (query f) k db = k (f db) db.
Proof. reflexivity. Qed.

Lemma bind_Return {A B} (m : M A) (k : A -> M B) db a db' :
  m db = (Return a, db') -> bind m k db = k a db'.
Proof. intros E. unfold bind. now rewrite E. Qed.

Lemma bind_attempt {A B} (f : DB -> Outcome A) (k : A -> M B) (db : DB) :
  bind (attempt f) k db
  = match f db with
    | Return a => k a db
    | Raise e => (Raise e, db)
    end.
Proof. unfold bind, attempt. now destruct (f db). Qed.

Lemma bind_Raise {A B} (m : M A) (k : A -> M B) db e db' :
  m db = (Raise e, db') -> bind m k db = (Raise e, db').
Proof. intros E. unfold bind. now rewrite E. Qed.

(** ** The partial update of [crud.update_task] *)

Section update_task.
Variable env : Env.

Lemma update_task_unfold task u db :
  crud.update_task env task u db =
  match expected_field (TaskUpdate.title u) (Some (Task.title task)) with
  | None => (Raise IntegrityError, db)
  | Some title =>
      let row := assigned_row env task u title in
      if bool_decide (row = task) then (Return task, db)
      else (Return (crud.with_updated_at (db_now env) row),
            crud.update_row (crud.with_updated_at (db_now env) row) db)
  end.
Proof.
  unfold crud.update_task, crud.assigned, assigned_row.
  destruct u as [ti de st pr du]; cbn.
  destruct st as [[[]|]|]; cbn; destruct ti as [[?|]|]; reflexivity.
Qed.

(** A commit that succeeds returns the assigned row, up to [updated_at]. *)
Lemma update_task_Return task u db task' db' :
  crud.update_task env task u db = (Return task', db') ->
  exists title,
    expected_field (TaskUpdate.title u) (Some (Task.title task)) = Some title
    /\ ((task' = task /\ assigned_row env task u title = task /\ db' = db)
        \/ (task' = crud.with_updated_at (db_now env) (assigned_row env task u title)
            /\ db' = crud.update_row task' db)).
Proof.
  rewrite update_task_unfold.
  destruct (expected_field _ _) as [title|]; [|discriminate].
  cbn zeta. case_bool_decide as E; intros [= <- <-]; exists title;
    (split; [reflexivity|]); [left | right]; auto.
Qed.

(** The commit fails exactly when the body sets [title] to [null]. *)
Lemma update_task_Raise task u db e db' :
  crud.update_task env task u db = (Raise e, db') ->
  e = IntegrityError /\ db' = db /\ TaskUpdate.title u = Some None.
Proof.
  rewrite update_task_unfold.
  destruct (TaskUpdate.title u) as [[?|]|]; cbn;
    try (case_bool_decide; discriminate).
  now intros [= <- <-].
Qed.
End update_task.

(** The two ways a commit succeeds: nothing to write, or the row written
    with a new [updated_at]. *)
Lemma update_task_cases env task u db task' db' :
  crud.update_task env task u db = (Return task', db') ->
  exists title,
    expected_field (TaskUpdate.title u) (Some (Task.title task)) = Some title
    /\ ((assigned_row env task u title = task /\ task' = task /\ db' = db)
        \/ (assigned_row env task u title <> task
            /\ task' = crud.with_updated_at (db_now env)
                                            (assigned_row env task u title)
            /\ db' = crud.update_row
                       (crud.with_updated_at (db_now env)
                                             (assigned_row env task u title))
                       db)).
Proof.
  rewrite update_task_unfold.
  destruct (expected_field _ _) as [title|]; [|discriminate].
  cbn zeta. case_bool_decide as E; intros [= <- <-]; exists title;
    (split; [reflexivity|]); [left | right]; auto.
Qed.

(** What a successful update leaves in [status] and [completed_at]. *)
Lemma update_task_status env task u db task' db' :
  crud.update_task env task u db = (Return task', db') ->
  Task.status task' = expected_field (TaskUpdate.status u) (Task.status task)
  /\ Task.completed_at task'
     = expected_completed_at env (Task.completed_at task) (TaskUpdate.status u).
Proof.
  intros E. apply update_task_Return in E as (title & _ & Hcase).
  destruct Hcase as [(-> & Hrow & _) | (-> & _)]; [|split; reflexivity].
  split; [exact (eq_sym (f_equal Task.status Hrow))
         | exact (eq_sym (f_equal Task.completed_at Hrow))].
Qed.

Lemma update_row_lookup row db (i : nat) t :
  tasks db !! i = Some t -> Task.id t <> Task.id row ->
  tasks (crud.update_row row db) !! i = Some t.
Proof.
  intros Hi Hne. cbn. rewrite list_lookup_fmap, Hi. cbn.
  destruct (Z.eqb_spec (Task.id t) (Task.id row)); [contradiction | reflexivity].
Qed.

(** After a successful update the store holds the returned row under the
    task's id. *)
Lemma update_task_stored env task u db task' db' :
  crud.get_task (Task.id task) db = Some task ->
  crud.update_task env task u db = (Return task', db') ->
  crud.get_task (Task.id task) db' = Some task'.
Proof.
  intros Hget E. apply update_task_Return in E as (title & _ & Hcase).
  destruct Hcase as [(-> & _ & ->) | (-> & ->)]; [assumption|].
  set (row := crud.with_updated_at _ _).
  revert Hget. unfold crud.get_task, crud.update_row. cbn [tasks].
  change (Task.id row) with (Task.id task).
  induction (tasks db) as [|t l IH]; cbn [map find]; [discriminate|].
  destruct (Z.eqb_spec (Task.id t) (Task.id task)) as [Heq|Hne].
  - intros _. change (Task.id row) with (Task.id task).
    now rewrite Z.eqb_refl.
  - destruct (Z.eqb_spec (Task.id t) (Task.id task)); [contradiction|]. exact IH.
Qed.

(** C9: a successful update changes exactly the fields present in the partial
    update, plus [completed_at] when [status] is among them, and
    [updated_at].  [id], [user_id] and [created_at] keep their values, each
    of [title], [description], [status], [priority] and [due_date] keeps its
    value unless the update carries it, and an update without [status]
    leaves [completed_at] alone.  Either nothing changed, and then the row,
    its [updated_at] and the store are as before; or [updated_at] is the
    database clock and the table holds the returned row in the place of the
    task's row.  The store holds the returned row under the task's id, every
    other row is as it was, and no user is touched. *)
Theorem update_task_frame env task u db task' db' :
  crud.update_task env task u db = (Return task', db') ->
  Task.id task' = Task.id task
  /\ Task.user_id task' = Task.user_id task
  /\ Task.created_at task' = Task.created_at task
  /\ Some (Task.title task')
     = expected_field (TaskUpdate.title u) (Some (Task.title task))
  /\ Task.description task'
     = expected_field (TaskUpdate.description u) (Task.description task)
  /\ Task.status task'
     = expected_field (TaskUpdate.status u) (Task.status task)
  /\ Task.priority task'
     = expected_field (TaskUpdate.priority u) (Task.priority task)
  /\ Task.due_date task'
     = expected_field (TaskUpdate.due_date u) (Task.due_date task)
  /\ Task.completed_at task'
     = expected_completed_at env (Task.completed_at task) (TaskUpdate.status u)
  /\ (TaskUpdate.status u = None ->
      Task.completed_at task' = Task.completed_at task)
  /\ ((task' = task /\ db' = db)
      \/ (crud.with_updated_at (Task.updated_at task) task' <> task
          /\ Task.updated_at task' = db_now env
          /\ tasks db'
             = map (fun t => if Task.id t =? Task.id task then task' else t)
                   (tasks db)))
  /\ (crud.get_task (Task.id task) db = Some task ->
      crud.get_task (Task.id task) db' = Some task')
  /\ users db' = users db
  /\ length (tasks db') = length (tasks db)
  /\ (forall (i : nat) t, tasks db !! i = Some t -> Task.id t <> Task.id task ->
                          tasks db' !! i = Some t).
Proof.
  intros E.
  pose proof (fun Hget => update_task_stored env task u db task' db' Hget E)
    as Hstored.
  apply update_task_cases in E as (title & Ht & Hcase).
  assert (Hst : TaskUpdate.status u = None ->
                expected_completed_at env (Task.completed_at task)
                  (TaskUpdate.status u) = Task.completed_at task)
    by (now intros ->).
  destruct Hcase as [(Hrow & -> & ->) | (Hdiff & -> & ->)].
  - rewrite Ht.
    pose proof (f_equal Task.title Hrow) as H1.
    pose proof (f_equal Task.description Hrow) as H2.
    pose proof (f_equal Task.status Hrow) as H3.
    pose proof (f_equal Task.priority Hrow) as H4.
    pose proof (f_equal Task.due_date Hrow) as H5.
    pose proof (f_equal Task.completed_at Hrow) as H6.
    cbn in H1, H2, H3, H4, H5, H6.
    repeat split; auto; congruence.
  - rewrite Ht.
    repeat split; try reflexivity; try exact Hst; try exact Hstored.
    + right. split; [|split; reflexivity].
      intros Heq. apply Hdiff. rewrite <- Heq.
      now destruct task.
    + unfold crud.update_row. cbn [tasks]. apply length_map.
    + intros i t Hi Hne.
      apply (update_row_lookup (crud.with_updated_at _ _)); [exact Hi | exact Hne].
Qed.

Lemma update_task_frame_witness :
  crud.update_task sample.env1 sample.task1 (sample.set_status (Some COMPLETED))
    sample.db_tasks = (Return sample.task1_completed, sample.db_one_completed)
  /\ crud.get_task 1 sample.db_tasks = Some sample.task1
  /\ Task.title sample.task1_completed = Task.title sample.task1
  /\ Task.status sample.task1_completed = Some COMPLETED
  /\ Task.completed_at sample.task1_completed = Some (utcnow sample.env1)
  /\ Task.updated_at sample.task1_completed = db_now sample.env1
  /\ crud.get_task 1 sample.db_one_completed = Some sample.task1_completed.
Proof.
  assert (E : crud.update_task sample.env1 sample.task1
                (sample.set_status (Some COMPLETED)) sample.db_tasks
              = (Return sample.task1_completed, sample.db_one_completed))
    by reflexivity.
  assert (Hget : crud.get_task (Task.id sample.task1) sample.db_tasks
                 = Some sample.task1) by reflexivity.
  split; [exact E|]. split; [exact Hget|].
  destruct (update_task_frame _ _ _ _ _ _ E)
    as (_ & _ & _ & Ht & _ & Hs & _ & _ & Hc & _ & Hcase & Hstored & _).
  split; [exact (f_equal (default "") Ht)|].
  split; [exact Hs|]. split; [exact Hc|]. split.
  - destruct Hcase as [[Heq _] | (_ & Hup & _)]; [discriminate Heq | exact Hup].
  - exact (Hstored Hget).
Defined.

(** An update that carries [status] establishes the invariant of section 3,
    whatever the row held before. *)
Lemma update_task_sets_invariant env task u db task' db' s :
  TaskUpdate.status u = Some s ->
  crud.update_task env task u db = (Return task', db') ->
  completed_at_invariant task'
  /\ (s = Some COMPLETED -> Task.completed_at task' = Some (utcnow env))
  /\ (s <> Some COMPLETED -> Task.completed_at task' = None).
Proof.
  intros Hs E. apply update_task_status in E as [Hst Hc].
  rewrite Hs in Hst, Hc. cbn in Hst, Hc. unfold completed_at_invariant.
  rewrite Hst, Hc.
  destruct s as [[]|]; cbn; repeat split; try congruence;
    try (intros [? [=]]); try (intros [=]); eauto.
Qed.

(** An update that does not carry [status] keeps the invariant of a row that
    satisfied it. *)
Lemma update_task_keeps_invariant env task u db task' db' :
  TaskUpdate.status u = None ->
  crud.update_task env task u db = (Return task', db') ->
  completed_at_invariant task -> completed_at_invariant task'.
Proof.
  intros Hs E. apply update_task_status in E as [Hst Hc].
  rewrite Hs in Hst, Hc. cbn in Hst, Hc. unfold completed_at_invariant.
  now rewrite Hst, Hc.
Qed.

(** ** Creating a task *)

(** [crud.create_task] stores the status of the body and never fills
    [completed_at]. *)
Lemma create_task_Return env user_id task db :
  exists db_task db',
    crud.create_task env user_id task db = (Return db_task, db')
    /\ Task.status db_task = Some (TaskCreate.status task)
    /\ Task.completed_at db_task = None
    /\ tasks db' = tasks db ++ [db_task]
    /\ users db' = users db.
Proof. eexists _, _. split; [reflexivity|]. cbn. auto. Qed.

(** A task created with any status but [completed] satisfies the invariant of
    section 3. *)
Lemma create_task_invariant env user_id task db db_task db' :
  TaskCreate.status task <> COMPLETED ->
  crud.create_task env user_id task db = (Return db_task, db') ->
  completed_at_invariant db_task.
Proof.
  intros Hne [= <- _]. unfold completed_at_invariant. cbn. split.
  - intros [? [=]].
  - intros [= E]. contradiction.
Qed.

(** C1: on [POST /tasks] with [{"title": "T", "status": "completed"}] the
    handler answers a task whose status is [completed] and whose
    [completed_at] is null, and stores that row: the invariant "completed_at
    is non-null if and only if the status is completed" does not hold after
    [create_task]. *)
Theorem create_completed_task_breaks_invariant :
  exists r db' row,
    main.create_task sample.env0 (sample.task_T COMPLETED) sample.alice_token
      sample.db_users = (Return r, db')
    /\ TaskResponse.status r = COMPLETED
    /\ TaskResponse.completed_at r = None
    /\ crud.get_task (TaskResponse.id r) db' = Some row
    /\ Task.status row = Some COMPLETED
    /\ Task.completed_at row = None
    /\ ~ completed_at_invariant row.
Proof.
  eexists _, _, _. split; [reflexivity|]. cbn.
  repeat (split; [reflexivity|]).
  unfold completed_at_invariant. cbn. intros [_ Hc].
  destruct (Hc eq_refl) as [? [=]].
Qed.

(** ** Access to one task: [GET], [PUT] and [DELETE /tasks/{task_id}] *)

Section task_scoped.
Variable env : Env.
Variables (task_id : Z) (task_update : TaskUpdate.t) (current_user : TokenData.t).
Variable db : DB.

Lemma get_task_unfold :
  main.get_task task_id current_user db =
  match crud.get_task task_id db with
  | None => (Raise (HTTPException 404 "Task not found"), db)
  | Some task =>
      match crud.get_user_by_username (TokenData.username current_user) db with
      | None => (Raise AttributeError, db)
      | Some user =>
          if Task.user_id task =? User.id user
          then TaskResponse.model_validate task db
          else (Raise (HTTPException 403 "Not authorized"), db)
      end
  end.
Proof.
  unfold main.get_task. rewrite bind_query.
  destruct (crud.get_task task_id db); [|reflexivity].
  rewrite bind_query. destruct (crud.get_user_by_username _ db); [|reflexivity].
  now destruct (_ =? _).
Qed.

Lemma update_task_handler_unfold :
  main.update_task env task_id task_update current_user db =
  match crud.get_task task_id db with
  | None => (Raise (HTTPException 404 "Task not found"), db)
  | Some task =>
      match crud.get_user_by_username (TokenData.username current_user) db with
      | None => (Raise AttributeError, db)
      | Some user =>
          if Task.user_id task =? User.id user
          then bind (crud.update_task env task task_update)
                    TaskResponse.model_validate db
          else (Raise (HTTPException 403 "Not authorized"), db)
      end
  end.
Proof.
  unfold main.update_task. rewrite bind_query.
  destruct (crud.get_task task_id db); [|reflexivity].
  rewrite bind_query. destruct (crud.get_user_by_username _ db); [|reflexivity].
  now destruct (_ =? _).
Qed.

Lemma delete_task_unfold :
  main.delete_task task_id current_user db =
  match crud.get_task task_id db with
  | None => (Raise (HTTPException 404 "Task not found"), db)
  | Some task =>
      match crud.get_user_by_username (TokenData.username current_user) db with
      | None => (Raise AttributeError, db)
      | Some user =>
          if Task.user_id task =? User.id user
          then crud.delete_task task db
          else (Raise (HTTPException 403 "Not authorized"), db)
      end
  end.
Proof.
  unfold main.delete_task. rewrite bind_query.
  destruct (crud.get_task task_id db); [|reflexivity].
  rewrite bind_query. destruct (crud.get_user_by_username _ db); [|reflexivity].
  now destruct (_ =? _).
Qed.
End task_scoped.

(** Serialising the response raises nothing but [ResponseValidationError]
    and leaves the session alone. *)
Lemma model_validate_cases task db :
  (exists r, TaskResponse.model_validate task db = (Return r, db))
  \/ TaskResponse.model_validate task db = (Raise ResponseValidationError, db).
Proof.
  unfold TaskResponse.model_validate.
  destruct (Task.status task), (Task.priority task); eauto.
Qed.

Lemma update_then_validate_cases env task u db :
  let r := bind (crud.update_task env task u) TaskResponse.model_validate db in
  (exists a, fst r = Return a)
  \/ (fst r = Raise IntegrityError /\ snd r = db)
  \/ (fst r = Raise ResponseValidationError
      /\ exists row, crud.update_task env task u db = (Return row, snd r)).
Proof.
  cbn zeta. unfold bind.
  destruct (crud.update_task env task u db) as [[row|e] db'] eqn:E.
  - destruct (model_validate_cases row db') as [[r ->] | ->]; cbn; eauto.
  - apply update_task_Raise in E as (-> & -> & _). cbn. auto.
Qed.

(** C2: for [GET], [PUT] and [DELETE] on a task id, a missing task fails with
    404 whoever asks (the lookup precedes the ownership check); an existing
    task whose owner differs from the actor's user id fails with 403; with
    equal ids the handler goes on to the operation and raises no
    [HTTPException].  So access is allowed if and only if the two ids are
    equal. *)
Theorem task_scoped_access env task_id task_update current_user db :
  (crud.get_task task_id db = None ->
   main.get_task task_id current_user db
     = (Raise (HTTPException 404 "Task not found"), db)
   /\ main.update_task env task_id task_update current_user db
     = (Raise (HTTPException 404 "Task not found"), db)
   /\ main.delete_task task_id current_user db
     = (Raise (HTTPException 404 "Task not found"), db))
  /\ (forall task user,
      crud.get_task task_id db = Some task ->
      crud.get_user_by_username (TokenData.username current_user) db = Some user ->
      (Task.user_id task <> User.id user ->
       main.get_task task_id current_user db
         = (Raise (HTTPException 403 "Not authorized"), db)
       /\ main.update_task env task_id task_update current_user db
         = (Raise (HTTPException 403 "Not authorized"), db)
       /\ main.delete_task task_id current_user db
         = (Raise (HTTPException 403 "Not authorized"), db))
      /\ (Task.user_id task = User.id user ->
          (main.get_task task_id current_user db
             = TaskResponse.model_validate task db
           /\ main.update_task env task_id task_update current_user db
             = bind (crud.update_task env task task_update)
                    TaskResponse.model_validate db
           /\ main.delete_task task_id current_user db
             = crud.delete_task task db)
          /\ forall c d,
              fst (main.get_task task_id current_user db)
                <> Raise (HTTPException c d)
              /\ fst (main.update_task env task_id task_update current_user db)
                <> Raise (HTTPException c d)
              /\ fst (main.delete_task task_id current_user db)
                <> Raise (HTTPException c d))).
Proof.
  rewrite get_task_unfold, update_task_handler_unfold, delete_task_unfold.
  split.
  - intros ->. auto.
  - intros task user -> ->. split.
    + intros Hne. destruct (Z.eqb_spec (Task.user_id task) (User.id user));
        [contradiction | auto].
    + intros Heq. rewrite Heq, Z.eqb_refl. split; [auto|].
      intros c d. repeat split.
      * destruct (model_validate_cases task db) as [[r ->] | ->]; discriminate.
      * destruct (update_then_validate_cases env task task_update db)
          as [[a ->] | [[-> _] | [-> _]]]; discriminate.
      * discriminate.
Qed.

Lemma task_scoped_access_witness :
  main.get_task 999 sample.alice_token sample.db_tasks
    = (Raise (HTTPException 404 "Task not found"), sample.db_tasks)
  /\ main.delete_task 1 sample.bob_token sample.db_tasks
    = (Raise (HTTPException 403 "Not authorized"), sample.db_tasks)
  /\ main.update_task sample.env1 1 (sample.set_status (Some COMPLETED))
       sample.alice_token sample.db_tasks
    = bind (crud.update_task sample.env1 sample.task1
              (sample.set_status (Some COMPLETED)))
           TaskResponse.model_validate sample.db_tasks.
Proof.
  split; [|split].
  - apply (task_scoped_access sample.env1 999 (sample.set_status None)
             sample.alice_token sample.db_tasks). reflexivity.
  - destruct (task_scoped_access sample.env1 1 (sample.set_status None)
                sample.bob_token sample.db_tasks) as [_ Hfound].
    destruct (Hfound sample.task1
                (User.mk 2 "bob" "bob@x.com" "$hunter2hunter2" true 1001 1001)
                eq_refl eq_refl) as [Hdeny _].
    apply Hdeny. cbn. lia.
  - destruct (task_scoped_access sample.env1 1 (sample.set_status (Some COMPLETED))
                sample.alice_token sample.db_tasks) as [_ Hfound].
    destruct (Hfound sample.task1
                (User.mk 1 "alice" "alice@x.com" "$password123" true 1001 1001)
                eq_refl eq_refl) as [_ Hallow].
    apply Hallow. reflexivity.
Defined.

(** C8: in the three handlers the resolved user is dereferenced without a
    user-not-found branch: when the task exists, the request dies on
    [AttributeError] (a 500) exactly when the token's subject maps to no
    user, so the ownership comparison is reached only if the subject still
    maps to an existing user. *)
Theorem ownership_check_needs_user env task_id task_update current_user db task :
  crud.get_task task_id db = Some task ->
  (fst (main.get_task task_id current_user db) = Raise AttributeError
   <-> crud.get_user_by_username (TokenData.username current_user) db = None)
  /\ (fst (main.update_task env task_id task_update current_user db)
        = Raise AttributeError
      <-> crud.get_user_by_username (TokenData.username current_user) db = None)
  /\ (fst (main.delete_task task_id current_user db) = Raise AttributeError
      <-> crud.get_user_by_username (TokenData.username current_user) db = None).
Proof.
  intros Hget.
  rewrite get_task_unfold, update_task_handler_unfold, delete_task_unfold, Hget.
  destruct (crud.get_user_by_username _ db) as [user|]; [|cbn; tauto].
  destruct (Task.user_id task =? User.id user); cbn.
  2: { repeat split; discriminate. }
  repeat split; try discriminate.
  - destruct (model_validate_cases task db) as [[r ->] | ->]; discriminate.
  - destruct (update_then_validate_cases env task task_update db)
      as [[a ->] | [[-> _] | [-> _]]]; discriminate.
Qed.

Lemma ownership_check_needs_user_witness :
  main.get_task 1 sample.ghost_token sample.db_tasks
    = (Raise AttributeError, sample.db_tasks)
  /\ (fst (main.get_task 1 sample.ghost_token sample.db_tasks)
        = Raise AttributeError
      <-> crud.get_user_by_username (TokenData.username sample.ghost_token)
            sample.db_tasks = None).
Proof.
  split; [reflexivity|].
  apply (ownership_check_needs_user sample.env1 1 (sample.set_status None)
           sample.ghost_token sample.db_tasks sample.task1 eq_refl).
Defined.

(** ** Failures leave the store alone *)

Lemma create_user_Raise `{Hasher} env user db e db' :
  crud.create_user env user db = (Raise e, db') -> e = IntegrityError /\ db' = db.
Proof.
  unfold crud.create_user. destruct (existsb _ _); [|discriminate].
  now intros [= <- <-].
Qed.

Lemma register_fails_cleanly `{Hasher} env user :
  fails_cleanly (main.register env user).
Proof.
  intros db e db'. unfold main.register. rewrite bind_query.
  destruct (crud.get_user_by_username _ db); [now intros [= _ <-]|].
  rewrite bind_query.
  destruct (crud.get_user_by_email _ db); [now intros [= _ <-]|].
  intros E. now apply create_user_Raise in E.
Qed.

Lemma login_fails_cleanly `{Hasher} `{security.Signer} settings env username password :
  fails_cleanly (main.login settings env username password).
Proof.
  intros db e db'. unfold main.login. rewrite bind_query.
  destruct (crud.get_user_by_username _ db); [|now intros [= _ <-]].
  destruct (verify_password _ _); cbn; [discriminate | now intros [= _ <-]].
Qed.

Lemma create_task_fails_cleanly env task current_user :
  fails_cleanly (main.create_task env task current_user).
Proof.
  intros db e db'. unfold main.create_task. rewrite bind_query.
  destruct (crud.get_user_by_username _ db); [|now intros [= _ <-]].
  discriminate.
Qed.

Lemma model_validate_list_pure l db :
  snd (TaskResponse.model_validate_list l db) = db.
Proof.
  induction l as [|task l IH]; [reflexivity|].
  cbn [TaskResponse.model_validate_list]. unfold bind.
  destruct (model_validate_cases task db) as [[r ->] | ->]; [|reflexivity].
  destruct (TaskResponse.model_validate_list l db) as [[rs|e] db1];
    cbn in IH |- *; exact IH.
Qed.

Lemma list_tasks_fails_cleanly status current_user :
  fails_cleanly (main.list_tasks status current_user).
Proof.
  intros db e db'. unfold main.list_tasks. rewrite bind_query.
  destruct (crud.get_user_by_username _ db); [|now intros [= _ <-]].
  rewrite bind_query. intros E.
  pose proof (model_validate_list_pure
                (crud.get_user_tasks (User.id t) status db) db) as Hp.
  now rewrite E in Hp.
Qed.

Lemma get_task_fails_cleanly task_id current_user :
  fails_cleanly (main.get_task task_id current_user).
Proof.
  intros db e db'. rewrite get_task_unfold.
  destruct (crud.get_task task_id db) as [task|]; [|now intros [= _ <-]].
  destruct (crud.get_user_by_username _ db) as [user|]; [|now intros [= _ <-]].
  destruct (_ =? _); [|now intros [= _ <-]].
  destruct (model_validate_cases task db) as [[r ->] | ->]; now intros [= _ <-].
Qed.

Lemma delete_task_fails_cleanly task_id current_user :
  fails_cleanly (main.delete_task task_id current_user).
Proof.
  intros db e db'. rewrite delete_task_unfold.
  destruct (crud.get_task task_id db) as [task|]; [|now intros [= _ <-]].
  destruct (crud.get_user_by_username _ db) as [user|]; [|now intros [= _ <-]].
  destruct (_ =? _); [discriminate | now intros [= _ <-]].
Qed.

Lemma get_task_summary_fails_cleanly current_user :
  fails_cleanly (main.get_task_summary current_user).
Proof.
  intros db e db'. unfold main.get_task_summary. rewrite bind_query.
  destruct (crud.get_user_by_username _ db) as [user|]; [|now intros [= _ <-]].
  rewrite bind_attempt.
  destruct (crud.get_task_summary (User.id user) db); [discriminate|].
  now intros [= _ <-].
Qed.

(** X20: an update answers every [HTTPException] (404 or 403 among them),
    the [AttributeError] and the [IntegrityError] with the store exactly as it
    was, so that none of its fields is applied; the one failure that leaves a
    change behind is the response validation error, and whatever an update
    answers, the store is either untouched or holds the whole committed
    update.  Every other handler that fails leaves the store as it was. *)
Theorem failure_leaves_store_unchanged `{Hasher} `{security.Signer}
    settings env task_id task_update current_user db o db' :
  main.update_task env task_id task_update current_user db = (o, db') ->
  ((o = Raise (HTTPException 404 "Task not found")
    \/ o = Raise (HTTPException 403 "Not authorized")) ->
   db' = db /\ crud.get_task task_id db' = crud.get_task task_id db)
  /\ (forall e, o = Raise e -> e <> ResponseValidationError -> db' = db)
  /\ (db' = db
      \/ exists task row,
          crud.get_task task_id db = Some task
          /\ crud.update_task env task task_update db = (Return row, db'))
  /\ (forall user, fails_cleanly (main.register env user))
  /\ (forall username password,
      fails_cleanly (main.login settings env username password))
  /\ (forall task, fails_cleanly (main.create_task env task current_user))
  /\ (forall status, fails_cleanly (main.list_tasks status current_user))
  /\ fails_cleanly (main.get_task task_id current_user)
  /\ fails_cleanly (main.delete_task task_id current_user)
  /\ fails_cleanly (main.get_task_summary current_user).
Proof.
  intros E.
  assert (Hclean : forall e, o = Raise e -> e <> ResponseValidationError -> db' = db).
  { intros e -> Hne. revert E. rewrite update_task_handler_unfold.
    destruct (crud.get_task task_id db) as [task|]; [|now intros [= _ <-]].
    destruct (crud.get_user_by_username _ db) as [user|]; [|now intros [= _ <-]].
    destruct (_ =? _); [|now intros [= _ <-]].
    intros E.
    destruct (update_then_validate_cases env task task_update db)
      as [[a Ha] | [[He Hdb] | [He _]]]; rewrite E in *; cbn in *;
      congruence. }
  split; [|split; [exact Hclean|split]].
  - intros Hrej. assert (db' = db) as ->; [|auto].
    destruct Hrej as [-> | ->]; eapply Hclean; eauto; discriminate.
  - revert E. rewrite update_task_handler_unfold.
    destruct (crud.get_task task_id db) as [task|]; [|intros [= _ <-]; auto].
    destruct (crud.get_user_by_username _ db) as [user|]; [|intros [= _ <-]; auto].
    destruct (_ =? _); [|intros [= _ <-]; auto].
    unfold bind.
    destruct (crud.update_task env task task_update db) as [[row|e] db1] eqn:Eu.
    + intros Ev. right. exists task, row. split; [reflexivity|].
      destruct (model_validate_cases row db1) as [[r Hr] | Hr];
        rewrite Hr in Ev; now injection Ev as _ <-.
    + apply update_task_Raise in Eu as (_ & -> & _). intros [= _ <-]. auto.
  - repeat split; intros.
    + apply register_fails_cleanly.
    + apply login_fails_cleanly.
    + apply create_task_fails_cleanly.
    + apply list_tasks_fails_cleanly.
    + apply get_task_fails_cleanly.
    + apply delete_task_fails_cleanly.
    + apply get_task_summary_fails_cleanly.
Qed.

Lemma failure_leaves_store_unchanged_witness :
  main.update_task sample.env1 1 (sample.set_title (Some "stolen"))
    sample.bob_token sample.db_tasks
    = (Raise (HTTPException 403 "Not authorized"), sample.db_tasks)
  /\ fails_cleanly (main.delete_task 1 sample.bob_token).
Proof.
  assert (E : main.update_task sample.env1 1 (sample.set_title (Some "stolen"))
                sample.bob_token sample.db_tasks
              = (Raise (HTTPException 403 "Not authorized"), sample.db_tasks))
    by reflexivity.
  split; [exact E|].
  apply (failure_leaves_store_unchanged (H:=sample.hasher) (H0:=sample.signer)
           Settings.default sample.env1 1 (sample.set_title (Some "stolen"))
           sample.bob_token sample.db_tasks _ _ E).
Defined.

(** C4: the owner's [PUT /tasks/1] with [{"title": "renamed", "status":
    null}] fails, with a response validation error and so a 500, and yet its
    fields are applied: the store afterwards holds task 1 with the new title,
    a null status and the new [updated_at].  A failing operation has
    mutated the store. *)
Theorem failed_update_stays_committed :
  exists db' row,
    main.update_task sample.env1 1
      (TaskUpdate.mk (Some (Some "renamed")) None (Some None) None None)
      sample.alice_token sample.db_tasks
    = (Raise ResponseValidationError, db')
    /\ http_status 200 (@Raise TaskResponse.t ResponseValidationError) = 500
    /\ crud.get_task 1 sample.db_tasks = Some sample.task1
    /\ Task.title sample.task1 = "T"
    /\ Task.status sample.task1 = Some TODO
    /\ crud.get_task 1 db' = Some row
    /\ Task.title row = "renamed"
    /\ Task.status row = None
    /\ Task.updated_at row = db_now sample.env1
    /\ db' <> sample.db_tasks.
Proof.
  eexists _, _. split; [reflexivity|].
  repeat (split; [reflexivity|]). discriminate.
Qed.

(** ** The task summary *)

Lemma sum_ones {A} (l : list A) :
  sum (map (fun _ => 1) l) = Z.of_nat (length l).
Proof.
  unfold sum. change (Z.of_nat (length l)) with (0 + Z.of_nat (length l)).
  generalize 0. induction l as [|x l IH]; intros a; cbn [map fold_left length].
  - lia.
  - rewrite IH. lia.
Qed.

Lemma length_filter_count {A} (p : A -> bool) (l : list A) :
  Z.of_nat (length (List.filter p l)) = count_rows p l.
Proof.
  induction l as [|x l IH]; [reflexivity|].
  cbn [List.filter count_rows]. destruct (p x); cbn [length]; lia.
Qed.

Lemma count_filter_filter {A} (p q : A -> bool) (l : list A) :
  Z.of_nat (length (List.filter q (List.filter p l)))
  = count_rows (fun x => p x && q x) l.
Proof.
  induction l as [|x l IH]; [reflexivity|].
  cbn [List.filter count_rows]. destruct (p x); cbn [List.filter andb].
  - destruct (q x); cbn [length]; lia.
  - lia.
Qed.

Lemma count_rows_nonneg {A} (p : A -> bool) (l : list A) : 0 <= count_rows p l.
Proof. induction l as [|x l IH]; cbn; [lia | destruct (p x); lia]. Qed.

Lemma count_rows_le {A} (p q : A -> bool) (l : list A) :
  (forall x, q x = true -> p x = true) -> count_rows q l <= count_rows p l.
Proof.
  intros Hpq. induction l as [|x l IH]; cbn; [lia|].
  destruct (q x) eqn:Eq; [rewrite (Hpq x Eq); lia | destruct (p x); lia].
Qed.

(** Every row of the owner has exactly one of the three statuses or none. *)
Lemma count_rows_by_status user_id (l : list Task.t) :
  count_rows (owned_by user_id) l
  = count_rows (owned_with_status user_id (Some TODO)) l
    + count_rows (owned_with_status user_id (Some IN_PROGRESS)) l
    + count_rows (owned_with_status user_id (Some COMPLETED)) l
    + count_rows (owned_with_status user_id None) l.
Proof.
  induction l as [|t l IH]; [reflexivity|].
  cbn [count_rows]. rewrite IH. unfold owned_by, owned_with_status.
  destruct (Task.user_id t =? user_id); cbn [andb]; [|lia].
  destruct (Task.status t) as [[]|];
    repeat case_bool_decide; try discriminate; try congruence; lia.
Qed.

(** *** Rounding to a double *)

Lemma round_half_even_error n d :
  0 < d -> Z.abs (2 * (round_half_even n d * d - n)) <= d.
Proof.
  intros Hd. unfold round_half_even.
  pose proof (Z.div_mod n d ltac:(lia)) as Hn.
  pose proof (Z.mod_pos_bound n d Hd) as Hr.
  generalize dependent (n / d). generalize dependent (n mod d). intros r Hr q Hn.
  destruct (Z.ltb_spec (2 * r) d); [nia|].
  destruct (Z.ltb_spec d (2 * r)); [nia|].
  destruct (Z.even q); nia.
Qed.

Lemma round_half_even_le n d N :
  0 < d -> n <= N * d -> round_half_even n d <= N.
Proof.
  intros Hd Hle. unfold round_half_even.
  pose proof (Z.div_mod n d ltac:(lia)) as Hn.
  pose proof (Z.mod_pos_bound n d Hd) as Hr.
  generalize dependent (n / d). generalize dependent (n mod d). intros r Hr q Hn.
  destruct (Z.ltb_spec (2 * r) d); [nia|].
  destruct (Z.ltb_spec d (2 * r)); [nia|].
  destruct (Z.even q); nia.
Qed.

Lemma round_half_even_nonneg n d :
  0 < d -> 0 <= n -> 0 <= round_half_even n d.
Proof.
  intros Hd Hn. unfold round_half_even.
  pose proof (Z.div_pos n d Hn Hd).
  destruct (_ <? _); [lia|]. destruct (_ <? _); [lia|]. destruct (Z.even _); lia.
Qed.

Lemma log2_floor_le a b n :
  0 < a -> 0 < b -> 0 <= n -> a < b * 2 ^ (n + 1) -> log2_floor a b <= n.
Proof.
  intros Ha Hb Hn Hlt. unfold log2_floor.
  pose proof (Z.log2_spec a Ha) as [Ha1 Ha2].
  pose proof (Z.log2_spec b Hb) as [Hb1 Hb2].
  pose proof (Z.log2_nonneg a). pose proof (Z.log2_nonneg b).
  set (k := Z.log2 a - Z.log2 b).
  destruct (Z.le_gt_cases k (n + 1)) as [Hk|Hk].
  - destruct (Z.eq_dec k (n + 1)) as [Heq|Hne].
    + rewrite Heq. destruct (Z.leb_spec 0 (n + 1)); [|lia].
      destruct (Z.leb_spec (b * 2 ^ (n + 1)) a); lia.
    + destruct (if 0 <=? k then _ else _); lia.
  - exfalso.
    assert (Hpow : 2 ^ (Z.log2 b + 1) * 2 ^ (n + 1) <= 2 ^ Z.log2 a).
    { rewrite <- Z.pow_add_r by lia. apply Z.pow_le_mono_r; lia. }
    assert (0 < 2 ^ (n + 1)) by (apply Z.pow_pos_nonneg; lia).
    nia.
Qed.

(** A positive fraction below [2 ^ 53] rounds to a fraction [m / p] with [p]
    a power of two: at most half a unit of [1 / p] away, no larger than any
    integer the fraction does not exceed, and the finer the smaller the
    fraction. *)
Lemma round_fraction_small a b :
  0 < a -> 0 < b -> a < b * 2 ^ 53 ->
  exists (m : Z) (p : positive),
    round_fraction a b = Finite (Qmake m p)
    /\ 0 <= m
    /\ Z.abs (2 * (m * b - a * Zpos p)) <= b
    /\ (forall N, a <= N * b -> m <= N * Zpos p)
    /\ (forall n, 0 <= n <= 52 -> a < b * 2 ^ (n + 1) -> 2 ^ (52 - n) <= Zpos p).
Proof.
  intros Ha Hb Hlt. unfold round_fraction.
  destruct (Z.eqb_spec a 0) as [|Hane]; [lia|].
  rewrite (Z.abs_eq a) by lia. rewrite (Z.sgn_pos a) by lia.
  pose proof (log2_floor_le a b 52 Ha Hb ltac:(lia) Hlt) as HL.
  set (e := Z.max (-1074) (log2_floor a b - 52)).
  assert (He : -1074 <= e <= 0) by (unfold e; lia).
  destruct (Z.leb_spec e 0) as [_|]; [|lia].
  destruct (Z.ltb_spec 971 e) as [|_]; [lia|].
  destruct (Z.eqb_spec e 971) as [|_]; [lia|]. cbn [orb andb].
  assert (HP : 0 < 2 ^ (- e)) by (apply Z.pow_pos_nonneg; lia).
  set (P := 2 ^ (- e)) in *.
  set (m := round_half_even (a * P) b).
  exists (1 * m), (Z.to_pos P). rewrite Z2Pos.id by exact HP.
  split; [reflexivity|].
  pose proof (round_half_even_error (a * P) b Hb) as Herr.
  pose proof (round_half_even_nonneg (a * P) b Hb ltac:(nia)) as Hnn.
  fold m in Herr, Hnn.
  split; [lia|]. split; [|split].
  - replace (1 * m * b - a * P) with (m * b - a * P) by lia. exact Herr.
  - intros N HN. assert (m <= N * P); [|lia].
    apply round_half_even_le; [exact Hb | nia].
  - intros n Hn Hlt'.
    pose proof (log2_floor_le a b n Ha Hb ltac:(lia) Hlt') as HL'.
    unfold P. apply Z.pow_le_mono_r; [lia|]. unfold e. lia.
Qed.

Lemma exact_rate_Qmake c t :
  0 < t -> (exact_rate c t == Qmake (100 * c) (Z.to_pos t))%Q.
Proof.
  intros Ht. unfold exact_rate. destruct t as [|p|p]; try lia.
  rewrite <- Qmake_Qdiv. unfold Qeq, Qmult, inject_Z. cbn [Qnum Qden Z.to_pos].
  rewrite Pos.mul_1_r. lia.
Qed.

Lemma Qabs_diff_le (m : Z) (p : positive) (a : Z) (b k : positive) :
  Z.abs (m * Zpos b - a * Zpos p) * Zpos k <= Zpos p * Zpos b ->
  (Qabs (Qmake m p - Qmake a b) <= Qmake 1 k)%Q.
Proof.
  intros H. apply Qabs_Qle_condition.
  unfold Qle, Qminus, Qplus, Qopp. cbn [Qnum Qden].
  rewrite !Pos2Z.inj_mul. split; nia.
Qed.

Lemma float_of_int_100 :
  float_of_int 100 = Finite (Qmake 7036874417766400 70368744177664).
Proof. vm_compute. reflexivity. Qed.

(** The two float operations of the rate, on a part [c] of a whole [t]: they
    raise nothing and give a finite double between 0 and 100, within
    [2 ^ -45] of the exact rate. *)
Lemma truediv_rate c t :
  0 <= c <= t -> 0 < t ->
  exists q r,
    truediv c t = Return q
    /\ fmul q (float_of_int 100) = Finite r
    /\ (0 <= r)%Q /\ (r <= inject_Z 100)%Q
    /\ (Qabs (r - exact_rate c t) <= Qmake 1 (2 ^ 45))%Q.
Proof.
  intros Hc Ht. unfold truediv.
  destruct (Z.eqb_spec t 0) as [|_]; [lia|].
  rewrite (Z.sgn_pos t), (Z.abs_eq t), Z.mul_1_l by lia.
  rewrite float_of_int_100.
  destruct (Z.eq_dec c 0) as [-> | Hc0].
  - exists (Finite 0), 0%Q. repeat split; try reflexivity; try discriminate.
  - destruct (round_fraction_small c t) as (m1 & p1 & E1 & Hm1 & Herr1 & Hle1 & Hp1);
      [lia | lia | lia |].
    specialize (Hle1 1 ltac:(lia)). specialize (Hp1 0 ltac:(lia) ltac:(lia)).
    change (2 ^ (52 - 0)) with 4503599627370496 in Hp1.
    exists (Finite (Qmake m1 p1)). rewrite E1.
    unfold fmul, round_binary64, Qmult. cbn [Qnum Qden].
    destruct (Z.eq_dec m1 0) as [-> | Hm0].
    + exists 0%Q. repeat split; try reflexivity; try discriminate.
      rewrite exact_rate_Qmake by exact Ht. apply Qabs_diff_le.
      rewrite Z2Pos.id by exact Ht. change (Z.pos (2 ^ 45)) with 35184372088832.
      nia.
    + destruct (round_fraction_small (m1 * 7036874417766400)
                  (Z.pos (p1 * 70368744177664)))
        as (m2 & p2 & E2 & Hm2 & Herr2 & Hle2 & Hp2); [lia | lia | lia |].
      specialize (Hle2 100 ltac:(lia)). specialize (Hp2 6 ltac:(lia) ltac:(lia)).
      change (2 ^ (52 - 6)) with 70368744177664 in Hp2.
      exists (Qmake m2 p2). rewrite E2.
      split; [reflexivity|]. split; [reflexivity|]. split; [|split].
      * unfold Qle. cbn. lia.
      * unfold Qle, inject_Z. cbn [Qnum Qden]. lia.
      * rewrite exact_rate_Qmake by exact Ht. apply Qabs_diff_le.
        rewrite Z2Pos.id by exact Ht. change (Z.pos (2 ^ 45)) with 35184372088832.
        rewrite Pos2Z.inj_mul in Herr2.
        assert (Hd : Z.abs (2 * (m2 * Z.pos p1 - 100 * (m1 * Z.pos p2)))
                     <= Z.pos p1) by lia.
        assert (Hid : 2 * Z.pos p1 * (m2 * t - 100 * c * Z.pos p2)
                      = t * (2 * (m2 * Z.pos p1 - 100 * (m1 * Z.pos p2)))
                        + 100 * Z.pos p2 * (2 * (m1 * t - c * Z.pos p1))) by ring.
        assert (Hsum : 2 * Z.pos p1 * Z.abs (m2 * t - 100 * c * Z.pos p2)
                       <= t * Z.pos p1 + 100 * Z.pos p2 * t) by nia.
        nia.
Qed.

(** The rounding above against the doubles of the machine: the same rate for
    every part of every whole up to 100. *)
Example float_rate_agrees_with_machine :
  forallb (fun p => rates_agree (fst p) (snd p)) (fractions_up_to 100) = true.
Proof. vm_compute. reflexivity. Qed.

(** *** The summary *)

(** The summary never raises; what it returns. *)
Lemma summary_Return user_id db :
  exists rate,
    crud.get_task_summary user_id db
    = Return (TaskSummary.mk
                (count_rows (owned_by user_id) (tasks db))
                (count_rows (owned_with_status user_id (Some COMPLETED)) (tasks db))
                (count_rows (owned_with_status user_id (Some IN_PROGRESS)) (tasks db))
                (count_rows (owned_with_status user_id (Some TODO)) (tasks db))
                rate)
    /\ (count_rows (owned_by user_id) (tasks db) = 0 -> rate = Finite 0)
    /\ (0 < count_rows (owned_by user_id) (tasks db) ->
        exists q,
          truediv (count_rows (owned_with_status user_id (Some COMPLETED)) (tasks db))
                  (count_rows (owned_by user_id) (tasks db)) = Return q
          /\ rate = fmul q (float_of_int 100))
    /\ exists r,
        rate = Finite r
        /\ (0 <= r)%Q /\ (r <= inject_Z 100)%Q
        /\ (0 < count_rows (owned_by user_id) (tasks db) ->
            (Qabs (r - exact_rate
                         (count_rows (owned_with_status user_id (Some COMPLETED))
                                     (tasks db))
                         (count_rows (owned_by user_id) (tasks db)))
             <= Qmake 1 (2 ^ 45))%Q).
Proof.
  unfold crud.get_task_summary, crud.get_user_tasks. cbn zeta.
  rewrite !sum_ones, !count_filter_filter, length_filter_count.
  change (fun t : Task.t => Task.user_id t =? user_id) with (owned_by user_id).
  change (fun x : Task.t => (Task.user_id x =? user_id)
                            && bool_decide (Task.status x = Some COMPLETED))
    with (owned_with_status user_id (Some COMPLETED)).
  change (fun x : Task.t => (Task.user_id x =? user_id)
                            && bool_decide (Task.status x = Some IN_PROGRESS))
    with (owned_with_status user_id (Some IN_PROGRESS)).
  change (fun x : Task.t => (Task.user_id x =? user_id)
                            && bool_decide (Task.status x = Some TODO))
    with (owned_with_status user_id (Some TODO)).
  pose proof (count_rows_nonneg (owned_by user_id) (tasks db)) as Ht.
  pose proof (count_rows_nonneg (owned_with_status user_id (Some COMPLETED))
                (tasks db)) as Hc.
  assert (Hle : count_rows (owned_with_status user_id (Some COMPLETED)) (tasks db)
                <= count_rows (owned_by user_id) (tasks db)).
  { apply count_rows_le. unfold owned_with_status, owned_by.
    intros x Hx. now apply andb_prop in Hx. }
  destruct (Z.ltb_spec 0 (count_rows (owned_by user_id) (tasks db))) as [Hpos|Hz].
  - destruct (truediv_rate _ _ (conj Hc Hle) Hpos)
      as (q & r & Eq & Er & Hlo & Hhi & Herr).
    rewrite Eq. exists (fmul q (float_of_int 100)).
    split; [reflexivity|]. split; [lia|]. split; [eauto|].
    exists r. auto.
  - exists (Finite 0). split; [reflexivity|]. split; [reflexivity|].
    split; [lia|]. exists 0%Q. repeat split; try discriminate. lia.
Qed.

(** The four counters of the summary, as counts over the table. *)
Lemma summary_counters user_id db :
  exists s,
    crud.get_task_summary user_id db = Return s
    /\ TaskSummary.total_tasks s = count_rows (owned_by user_id) (tasks db)
    /\ TaskSummary.completed_tasks s
       = count_rows (owned_with_status user_id (Some COMPLETED)) (tasks db)
    /\ TaskSummary.in_progress_tasks s
       = count_rows (owned_with_status user_id (Some IN_PROGRESS)) (tasks db)
    /\ TaskSummary.todo_tasks s
       = count_rows (owned_with_status user_id (Some TODO)) (tasks db).
Proof.
  destruct (summary_Return user_id db) as (rate & E & _).
  eexists. split; [exact E|]. repeat split.
Qed.

(** C5: computing the summary never raises, whatever the owner's tasks.  It
    reports as [total_tasks] the number of that owner's tasks and as
    [completed_tasks], [in_progress_tasks] and [todo_tasks] the numbers of
    that owner's tasks with the respective status.  With no task the rate is
    the float 0 and nothing is divided; otherwise [completion_rate] is
    [completed / total * 100] in double precision (the quotient rounded, then
    the product rounded), a double between 0 and 100 that lies within
    [2 ^ -45] of the exact rate. *)
Theorem get_task_summary_counts user_id db :
  exists s,
    crud.get_task_summary user_id db = Return s
    /\ TaskSummary.total_tasks s = count_rows (owned_by user_id) (tasks db)
    /\ TaskSummary.completed_tasks s
       = count_rows (owned_with_status user_id (Some COMPLETED)) (tasks db)
    /\ TaskSummary.in_progress_tasks s
       = count_rows (owned_with_status user_id (Some IN_PROGRESS)) (tasks db)
    /\ TaskSummary.todo_tasks s
       = count_rows (owned_with_status user_id (Some TODO)) (tasks db)
    /\ (TaskSummary.total_tasks s = 0 -> TaskSummary.completion_rate s = Finite 0)
    /\ (0 < TaskSummary.total_tasks s ->
        exists q,
          truediv (TaskSummary.completed_tasks s) (TaskSummary.total_tasks s)
          = Return q
          /\ TaskSummary.completion_rate s = fmul q (float_of_int 100))
    /\ exists r,
        TaskSummary.completion_rate s = Finite r
        /\ (0 <= r)%Q /\ (r <= inject_Z 100)%Q
        /\ (0 < TaskSummary.total_tasks s ->
            (Qabs (r - exact_rate (TaskSummary.completed_tasks s)
                                  (TaskSummary.total_tasks s))
             <= Qmake 1 (2 ^ 45))%Q).
Proof.
  destruct (summary_Return user_id db) as (rate & E & H0 & Hdiv & Hrate).
  eexists. split; [exact E|].
  cbn [TaskSummary.total_tasks TaskSummary.completed_tasks
       TaskSummary.in_progress_tasks TaskSummary.todo_tasks
       TaskSummary.completion_rate].
  repeat (split; [reflexivity|]). auto.
Qed.

Lemma get_task_summary_counts_witness :
  exists s r,
    crud.get_task_summary 1 sample.db_one_completed = Return s
    /\ TaskSummary.total_tasks s = 2
    /\ TaskSummary.completed_tasks s = 1
    /\ TaskSummary.completion_rate s = Finite r
    /\ (Qabs (r - exact_rate 1 2) <= Qmake 1 (2 ^ 45))%Q.
Proof.
  destruct (get_task_summary_counts 1 sample.db_one_completed)
    as (s & E & Ht & Hc & _ & _ & _ & _ & r & Hr & _ & _ & Herr).
  exists s, r. rewrite Ht, Hc in Herr.
  repeat split; try assumption. apply Herr. reflexivity.
Defined.

(** Eleven tasks of twenty completed: the rate is not 55 but the double next
    above it. *)
Lemma completion_rate_not_exact :
  exists s r,
    crud.get_task_summary 1 sample.db_11_of_20 = Return s
    /\ TaskSummary.total_tasks s = 20
    /\ TaskSummary.completed_tasks s = 11
    /\ TaskSummary.completion_rate s = Finite r
    /\ ~ (r == exact_rate 11 20)%Q
    /\ (exact_rate 11 20 == 55)%Q
    /\ (r - exact_rate 11 20 == Qmake 1 (2 ^ 47))%Q.
Proof.
  eexists _, _. split; [vm_compute; reflexivity|].
  cbn [TaskSummary.total_tasks TaskSummary.completed_tasks
       TaskSummary.completion_rate].
  repeat (split; [reflexivity|]). split; [|split]; vm_compute; congruence.
Qed.

(** Section 8: two tasks, one of them completed. *)
Example summary_two_tasks_one_completed :
  exists s r,
    main.get_task_summary sample.alice_token sample.db_one_completed
      = (Return s, sample.db_one_completed)
    /\ TaskSummary.total_tasks s = 2
    /\ TaskSummary.completed_tasks s = 1
    /\ TaskSummary.todo_tasks s = 1
    /\ TaskSummary.completion_rate s = Finite r
    /\ (r == 50)%Q.
Proof. eexists _, _. split; [vm_compute; reflexivity|]. now repeat split. Qed.

(** No task: the rate is 0. *)
Example summary_no_task :
  exists s,
    crud.get_task_summary 1 sample.db_users = Return s
    /\ TaskSummary.total_tasks s = 0
    /\ TaskSummary.completion_rate s = Finite 0.
Proof. eexists. split; [reflexivity|]. now split. Qed.

(** The total is the three counters plus the owner's rows whose status is
    [NULL]. *)
Lemma summary_total_split user_id db s :
  crud.get_task_summary user_id db = Return s ->
  TaskSummary.total_tasks s
  = TaskSummary.todo_tasks s + TaskSummary.in_progress_tasks s
    + TaskSummary.completed_tasks s
    + count_rows (owned_with_status user_id None) (tasks db).
Proof.
  destruct (summary_counters user_id db) as (s' & -> & Ht & Hc & Hi & Hd).
  intros [= <-]. rewrite Ht, Hc, Hi, Hd. apply count_rows_by_status.
Qed.

(** When each of the owner's rows has a status, the three counters add up to
    the total. *)
Lemma summary_total_sum user_id db s :
  (forall t, In t (tasks db) -> Task.user_id t = user_id ->
             Task.status t <> None) ->
  crud.get_task_summary user_id db = Return s ->
  TaskSummary.total_tasks s
  = TaskSummary.todo_tasks s + TaskSummary.in_progress_tasks s
    + TaskSummary.completed_tasks s.
Proof.
  intros Hst E. rewrite (summary_total_split user_id db s E).
  assert (count_rows (owned_with_status user_id None) (tasks db) = 0) as ->;
    [|lia].
  clear E. induction (tasks db) as [|t l IH]; [reflexivity|].
  cbn [count_rows]. rewrite IH by (intros; apply Hst; [now right | assumption]).
  unfold owned_with_status.
  destruct (Z.eqb_spec (Task.user_id t) user_id) as [Heq|]; [|reflexivity].
  specialize (Hst t (or_introl eq_refl) Heq).
  case_bool_decide; [contradiction | reflexivity].
Qed.

(** The rate is a finite double between 0 and 100. *)
Lemma summary_rate_bounds user_id db s :
  crud.get_task_summary user_id db = Return s ->
  exists r,
    TaskSummary.completion_rate s = Finite r
    /\ (0 <= r)%Q /\ (r <= inject_Z 100)%Q.
Proof.
  destruct (summary_Return user_id db) as (rate & -> & _ & _ & r & Hr & Hlo & Hhi & _).
  intros [= <-]. exists r. auto.
Qed.

(** C10: after [PUT /tasks/1] with [{"status": null}], which stores the null
    and then dies serialising the response, alice owns two tasks while the
    three counters of her summary add up to one: [total_tasks] is not
    [todo_tasks + in_progress_tasks + completed_tasks]. *)
Theorem summary_total_exceeds_status_counts :
  main.update_task sample.env1 1 (sample.set_status None) sample.alice_token
    sample.db_tasks = (Raise ResponseValidationError, sample.db_null_status)
  /\ exists s,
      main.get_task_summary sample.alice_token sample.db_null_status
        = (Return s, sample.db_null_status)
      /\ TaskSummary.total_tasks s = 2
      /\ TaskSummary.todo_tasks s = 1
      /\ TaskSummary.in_progress_tasks s = 0
      /\ TaskSummary.completed_tasks s = 0
      /\ TaskSummary.total_tasks s
         <> TaskSummary.todo_tasks s + TaskSummary.in_progress_tasks s
            + TaskSummary.completed_tasks s.
Proof.
  split; [reflexivity|]. eexists. split; [reflexivity|]. cbn.
  repeat split. discriminate.
Qed.

(** ** Registration and login *)

Lemma get_user_by_username_None name db :
  crud.get_user_by_username (Some name) db = None
  <-> forall u, In u (users db) -> User.username u <> name.
Proof.
  unfold crud.get_user_by_username. split.
  - intros Hf u Hin Heq. apply (find_none _ _ Hf) in Hin.
    apply String.eqb_neq in Hin. contradiction.
  - intros Hall. destruct (find _ _) as [u|] eqn:E; [|reflexivity].
    apply find_some in E as [Hin Heq]. apply String.eqb_eq in Heq.
    now destruct (Hall u Hin).
Qed.

Lemma get_user_by_username_Some name db user :
  crud.get_user_by_username (Some name) db = Some user ->
  In user (users db) /\ User.username user = name.
Proof.
  unfold crud.get_user_by_username. intros E.
  apply find_some in E as [Hin Heq]. now apply String.eqb_eq in Heq.
Qed.

Lemma get_user_by_email_None email db :
  crud.get_user_by_email email db = None
  <-> forall u, In u (users db) -> User.email u <> email.
Proof.
  unfold crud.get_user_by_email. split.
  - intros Hf u Hin Heq. apply (find_none _ _ Hf) in Hin.
    apply String.eqb_neq in Hin. contradiction.
  - intros Hall. destruct (find _ _) as [u|] eqn:E; [|reflexivity].
    apply find_some in E as [Hin Heq]. apply String.eqb_eq in Heq.
    now destruct (Hall u Hin).
Qed.

(** With the username and the email free, the [INSERT] meets no unique
    constraint. *)
Lemma create_user_free `{Hasher} env user db :
  (forall u, In u (users db) -> User.username u <> UserCreate.username user) ->
  (forall u, In u (users db) -> User.email u <> UserCreate.email user) ->
  exists db_user,
    crud.create_user env user db
    = (Return db_user,
       mkDB (users db ++ [db_user]) (tasks db)
            (users_id_seq db + 1) (tasks_id_seq db))
    /\ User.username db_user = UserCreate.username user
    /\ User.email db_user = UserCreate.email user
    /\ User.hashed_password db_user
       = get_password_hash (salt env) (UserCreate.password user).
Proof.
  intros Hname Hemail. unfold crud.create_user.
  destruct (existsb _ _) eqn:E.
  - apply existsb_exists in E as (u & Hin & Hu). cbn in Hu.
    apply orb_prop in Hu as [Hu|Hu]; apply String.eqb_eq in Hu.
    + now destruct (Hname u Hin).
    + now destruct (Hemail u Hin).
  - eexists. split; [reflexivity|]. cbn. auto.
Qed.

(** C6: registration fails with 400 "Username already registered" whenever
    the username belongs to an existing user; with the username free it fails
    with 400 "Email already registered" whenever the email belongs to an
    existing user; otherwise it inserts the user and answers 201. *)
Theorem register_spec `{Hasher} env user db :
  ((exists u, In u (users db) /\ User.username u = UserCreate.username user) ->
   main.register env user db
     = (Raise (HTTPException 400 "Username already registered"), db)
   /\ http_status 201 (fst (main.register env user db)) = 400)
  /\ ((forall u, In u (users db) -> User.username u <> UserCreate.username user) ->
      (exists u, In u (users db) /\ User.email u = UserCreate.email user) ->
      main.register env user db
        = (Raise (HTTPException 400 "Email already registered"), db)
      /\ http_status 201 (fst (main.register env user db)) = 400)
  /\ ((forall u, In u (users db) -> User.username u <> UserCreate.username user) ->
      (forall u, In u (users db) -> User.email u <> UserCreate.email user) ->
      exists db_user,
        main.register env user db
        = (Return db_user,
           mkDB (users db ++ [db_user]) (tasks db)
                (users_id_seq db + 1) (tasks_id_seq db))
        /\ User.username db_user = UserCreate.username user
        /\ User.email db_user = UserCreate.email user
        /\ User.hashed_password db_user
           = get_password_hash (salt env) (UserCreate.password user)
        /\ http_status 201 (fst (main.register env user db)) = 201).
Proof.
  unfold main.register. rewrite bind_query.
  split; [|split].
  - intros (u & Hin & Heq).
    destruct (crud.get_user_by_username _ db) eqn:E; [now split|].
    rewrite get_user_by_username_None in E. now destruct (E u Hin).
  - intros Hname (u & Hin & Heq).
    apply get_user_by_username_None in Hname. rewrite Hname, bind_query.
    destruct (crud.get_user_by_email _ db) eqn:E; [now split|].
    rewrite get_user_by_email_None in E. now destruct (E u Hin).
  - intros Hname Hemail.
    destruct (create_user_free env user db Hname Hemail)
      as (db_user & E & Hu & He & Hp).
    apply get_user_by_username_None in Hname. rewrite Hname, bind_query.
    apply get_user_by_email_None in Hemail. rewrite Hemail, E.
    exists db_user. now repeat split.
Qed.

Lemma register_spec_witness :
  main.register (H:=sample.hasher) sample.env1 sample.alice sample.db_users
    = (Raise (HTTPException 400 "Username already registered"), sample.db_users)
  /\ main.register (H:=sample.hasher) sample.env1
       (UserCreate.mk "alice2" "alice@x.com" "password123") sample.db_users
    = (Raise (HTTPException 400 "Email already registered"), sample.db_users)
  /\ http_status 201
       (fst (main.register (H:=sample.hasher) sample.env0 sample.alice
               sample.empty)) = 201.
Proof.
  split; [|split].
  - apply (register_spec (H:=sample.hasher) sample.env1 sample.alice
             sample.db_users).
    eexists. split; [left; reflexivity | reflexivity].
  - apply (register_spec (H:=sample.hasher) sample.env1
             (UserCreate.mk "alice2" "alice@x.com" "password123")
             sample.db_users).
    + intros u [<- | [<- | []]]; discriminate.
    + eexists. split; [left; reflexivity | reflexivity].
  - destruct (register_spec (H:=sample.hasher) sample.env0 sample.alice
                sample.empty) as (_ & _ & Hok).
    destruct Hok as (db_user & _ & _ & _ & _ & Hs).
    + intros u [].
    + intros u [].
    + exact Hs.
Defined.

(** Section 8: alice logs in with her password and gets a bearer token. *)
Example login_alice :
  exists token,
    main.login (H:=sample.hasher) (H0:=sample.signer) Settings.default sample.env1
      "alice" "password123" sample.db_users = (Return token, sample.db_users)
    /\ Token.token_type token = "bearer".
Proof. eexists. split; reflexivity. Qed.

(** ** The token service *)

Lemma validate_unfold `{security.Signer} secret_key now claims signature :
  security.validate secret_key now (security.Signed claims signature)
  = if bool_decide (signature = security.sign secret_key claims)
    then if security.exp claims <=? now
         then inl security.Expired
         else inr (security.sub claims)
    else inl security.BadSignature.
Proof. reflexivity. Qed.

(** Overwriting one byte of a signature with a different byte gives a
    different signature. *)
Lemma tampered_signature_differs (signature : list Byte.byte) (i : nat) b :
  (i < length signature)%nat -> signature !! i <> Some b ->
  <[i:=b]> signature <> signature.
Proof.
  intros Hi Hne Heq. apply Hne. rewrite <- Heq at 1.
  now apply list_lookup_insert_eq.
Qed.

(** A signature segment other than the secret's fails with [BadSignature],
    expired or not. *)
Lemma validate_bad_signature `{security.Signer} secret_key now claims signature :
  signature <> security.sign secret_key claims ->
  security.validate secret_key now (security.Signed claims signature)
  = inl security.BadSignature.
Proof.
  intros Hne. rewrite validate_unfold.
  case_bool_decide; [contradiction | reflexivity].
Qed.

(** A correctly signed token is judged on its expiry alone. *)
Lemma validate_well_signed `{security.Signer} secret_key now claims :
  security.validate secret_key now
    (security.Signed claims (security.sign secret_key claims))
  = if security.exp claims <=? now
    then inl security.Expired
    else inr (security.sub claims).
Proof.
  rewrite validate_unfold. case_bool_decide; [reflexivity | contradiction].
Qed.

(** C3: [validate] returns the embedded subject only for a token whose
    signature is the one the process-wide secret gives its claims and whose
    expiry lies after the current time.  A correctly signed token fails with
    [Expired] whenever the current time has reached its expiry, so a token
    issued with ttl 0 is rejected at the instant of issuance.  A token whose
    signature segment differs from the secret's signature (a byte of it
    overwritten, or signed with a secret that signs these claims differently)
    fails with [BadSignature], and a malformed token with [InvalidToken]. *)
Theorem validate_spec `{security.Signer} secret_key now token :
  (forall subject,
      security.validate secret_key now token = inr subject
      <-> exists claims,
          token = security.Signed claims (security.sign secret_key claims)
          /\ now < security.exp claims
          /\ security.sub claims = subject)
  /\ (forall claims,
      token = security.Signed claims (security.sign secret_key claims) ->
      security.exp claims <= now ->
      security.validate secret_key now token = inl security.Expired)
  /\ (forall subject issued_at ttl,
      token = security.create_access_token secret_key subject ttl issued_at ->
      security.validate secret_key now token
      = if issued_at + ttl <=? now then inl security.Expired else inr subject)
  /\ (forall subject,
      security.validate secret_key now
        (security.create_access_token secret_key subject 0 now)
      = inl security.Expired)
  /\ (forall claims signature,
      token = security.Signed claims signature ->
      signature <> security.sign secret_key claims ->
      security.validate secret_key now token = inl security.BadSignature)
  /\ (forall claims (i : nat) b,
      token = security.Signed claims (<[i:=b]> (security.sign secret_key claims)) ->
      (i < length (security.sign secret_key claims))%nat ->
      security.sign secret_key claims !! i <> Some b ->
      security.validate secret_key now token = inl security.BadSignature)
  /\ (forall other_key claims,
      token = security.Signed claims (security.sign other_key claims) ->
      security.sign other_key claims <> security.sign secret_key claims ->
      security.validate secret_key now token = inl security.BadSignature)
  /\ (forall raw,
      token = security.Malformed raw ->
      security.validate secret_key now token = inl security.InvalidToken).
Proof.
  pose proof (validate_bad_signature secret_key now) as Hbad.
  pose proof (validate_well_signed secret_key now) as Hgood.
  repeat split.
  - destruct token as [raw | claims signature]; [discriminate|].
    rewrite validate_unfold. case_bool_decide as Hs; [|discriminate].
    destruct (Z.leb_spec (security.exp claims) now); [discriminate|].
    intros [= <-]. exists claims. subst signature. auto.
  - intros (claims & -> & Hlt & <-). rewrite Hgood.
    destruct (Z.leb_spec (security.exp claims) now); [lia | reflexivity].
  - intros claims -> Hle. rewrite Hgood.
    destruct (Z.leb_spec (security.exp claims) now); [reflexivity | lia].
  - intros subject issued_at ttl ->. unfold security.create_access_token.
    cbn zeta. now rewrite Hgood.
  - intros subject. unfold security.create_access_token. cbn zeta.
    rewrite Hgood. cbn [security.exp].
    destruct (Z.leb_spec (now + 0) now); [reflexivity | lia].
  - intros claims signature -> Hne. now apply Hbad.
  - intros claims i b -> Hi Hne. apply Hbad.
    now apply tampered_signature_differs.
  - intros other_key claims -> Hne. now apply Hbad.
  - now intros raw ->.
Qed.

Lemma validate_spec_witness :
  security.validate (H:=sample.signer) "k1" 1000
    (security.create_access_token (H:=sample.signer) "k1" "alice" 1800 1000)
  = inr "alice"
  /\ security.validate (H:=sample.signer) "k1" 2800
       (security.create_access_token (H:=sample.signer) "k1" "alice" 1800 1000)
     = inl security.Expired
  /\ security.validate (H:=sample.signer) "k1" 1000
       (security.Signed (security.mkClaims "alice" 2800)
          (<[0%nat:=Byte.x00]>
             (security.sign (Signer:=sample.signer) "k1"
                (security.mkClaims "alice" 2800))))
     = inl security.BadSignature
  /\ security.validate (H:=sample.signer) "k1" 1000
       (security.create_access_token (H:=sample.signer) "k2" "alice" 1800 1000)
     = inl security.BadSignature
  /\ security.validate (H:=sample.signer) "k1" 1000 (security.Malformed "x.y")
     = inl security.InvalidToken.
Proof.
  repeat apply conj.
  - apply (validate_spec (H:=sample.signer) "k1" 1000).
    exists (security.mkClaims "alice" 2800).
    split; [reflexivity | split; [reflexivity | reflexivity]].
  - destruct (validate_spec (H:=sample.signer) "k1" 2800
                (security.create_access_token (H:=sample.signer)
                   "k1" "alice" 1800 1000))
      as (_ & Hexpired & _).
    apply (Hexpired (security.mkClaims "alice" 2800)); [reflexivity | cbn; lia].
  - destruct (validate_spec (H:=sample.signer) "k1" 1000
                (security.Signed (security.mkClaims "alice" 2800)
                   (<[0%nat:=Byte.x00]>
                      (security.sign (Signer:=sample.signer) "k1"
                         (security.mkClaims "alice" 2800)))))
      as (_ & _ & _ & _ & _ & Htampered & _).
    apply (Htampered (security.mkClaims "alice" 2800) 0%nat Byte.x00);
      [reflexivity | vm_compute; lia | discriminate].
  - destruct (validate_spec (H:=sample.signer) "k1" 1000
                (security.create_access_token (H:=sample.signer)
                   "k2" "alice" 1800 1000))
      as (_ & _ & _ & _ & _ & _ & Hother & _).
    apply (Hother "k2" (security.mkClaims "alice" 2800));
      [reflexivity | discriminate].
  - destruct (validate_spec (H:=sample.signer) "k1" 1000
                (security.Malformed "x.y"))
      as (_ & _ & _ & _ & _ & _ & _ & Hmalformed).
    apply (Hmalformed "x.y"). reflexivity.
Defined.

(** A token that [login] issues names the user for the whole of its ttl and
    no longer. *)
Lemma login_token_validates `{Hasher} `{security.Signer} settings env
      username password db token db' now :
  main.login settings env username password db = (Return token, db') ->
  security.validate (Settings.secret_key settings) now (Token.access_token token)
  = if utcnow env
       + timedelta_minutes (Settings.access_token_expire_minutes settings) <=? now
    then inl security.Expired
    else inr username.
Proof.
  unfold main.login. rewrite bind_query.
  destruct (crud.get_user_by_username (Some username) db) as [user|] eqn:E;
    [|discriminate].
  apply get_user_by_username_Some in E as [_ Hname].
  destruct (verify_password _ _); cbn [negb]; [|discriminate].
  intros [= <- _]. cbn [Token.access_token].
  unfold security.create_access_token. cbn zeta.
  rewrite validate_well_signed. cbn [security.exp security.sub].
  now rewrite Hname.
Qed.

(** * Further properties of the store and the handlers *)

(** ** Lookups in a table that grew or shrank *)

Lemma find_app_fresh {A} (p : A -> bool) (l : list A) x :
  Forall (fun y => p y = false) l -> p x = true -> find p (l ++ [x]) = Some x.
Proof.
  intros Hl Hx. induction Hl as [|y l Hy _ IH]; cbn; [now rewrite Hx|].
  now rewrite Hy.
Qed.

Lemma find_app_old {A} (p : A -> bool) (l : list A) x :
  p x = false -> find p (l ++ [x]) = find p l.
Proof.
  intros Hx. induction l as [|y l IH]; cbn; [now rewrite Hx|].
  now destruct (p y).
Qed.

Lemma find_app_Some {A} (p : A -> bool) (l l' : list A) y :
  find p l = Some y -> find p (l ++ l') = Some y.
Proof.
  induction l as [|z l IH]; cbn; [discriminate|]. now destruct (p z).
Qed.

Lemma find_deleted (i : Z) (l : list Task.t) :
  find (fun t => Task.id t =? i)
       (List.filter (fun t => negb (Task.id t =? i)) l) = None.
Proof.
  induction l as [|t l IH]; [reflexivity|]. cbn [List.filter].
  destruct (Task.id t =? i) eqn:E; cbn [negb find]; [exact IH|].
  now rewrite E.
Qed.

Lemma find_not_deleted (i j : Z) (l : list Task.t) :
  j <> i ->
  find (fun t => Task.id t =? j)
       (List.filter (fun t => negb (Task.id t =? i)) l)
  = find (fun t => Task.id t =? j) l.
Proof.
  intros Hne. induction l as [|t l IH]; [reflexivity|]. cbn [List.filter find].
  destruct (Z.eqb_spec (Task.id t) i) as [Hi|Hi]; cbn [negb find].
  - destruct (Z.eqb_spec (Task.id t) j); [congruence | exact IH].
  - now rewrite IH.
Qed.

Lemma NoDup_map_filter {A B} (f : A -> B) (p : A -> bool) (l : list A) :
  List.NoDup (map f l) -> List.NoDup (map f (List.filter p l)).
Proof.
  induction l as [|x l IH]; cbn [map List.filter]; [auto|].
  intros Hnd. apply List.NoDup_cons_iff in Hnd as [Hx Hnd].
  destruct (p x); cbn [map]; [|auto].
  apply List.NoDup_cons_iff. split; [|auto].
  intros Hin. apply Hx. apply in_map_iff in Hin as (y & Hy & Hin).
  apply filter_In in Hin as [Hin _]. apply in_map_iff. eauto.
Qed.

Lemma NoDup_map_snoc {A B} (f : A -> B) (l : list A) x :
  List.NoDup (map f l) -> (forall y, In y l -> f y <> f x) ->
  List.NoDup (map f (l ++ [x])).
Proof.
  intros Hnd Hx. rewrite map_app. cbn [map].
  induction l as [|y l IH]; cbn [map app].
  - apply List.NoDup_cons_iff. split; [intros [] | constructor].
  - apply List.NoDup_cons_iff in Hnd as [Hy Hnd].
    apply List.NoDup_cons_iff. split.
    + intros Hin. apply in_app_or in Hin as [Hin | [Heq | []]]; [auto|].
      apply (Hx y); [now left | now symmetry].
    + apply IH; [exact Hnd|]. intros z Hz. apply Hx. now right.
Qed.

(** Rows with one key are one row, in a table with unique keys. *)
Lemma NoDup_map_In_inj {A B} (f : A -> B) (l : list A) x y :
  List.NoDup (map f l) -> In x l -> In y l -> f x = f y -> x = y.
Proof.
  induction l as [|z l IH]; cbn [map]; [intros _ []|].
  intros Hnd. apply List.NoDup_cons_iff in Hnd as [Hz Hnd].
  intros [-> | Hx] [-> | Hy] Heq; auto.
  - destruct Hz. rewrite Heq. now apply in_map.
  - destruct Hz. rewrite <- Heq. now apply in_map.
Qed.

(** ** The store stays well formed *)

Lemma wf_create_user `{Hasher} env user db db_user db' :
  wf_db db -> crud.create_user env user db = (Return db_user, db') -> wf_db db'.
Proof.
  intros (Ht & Htb & Hu & Hub & Hn & He). unfold crud.create_user.
  destruct (existsb _ _) eqn:E; [discriminate|]. intros [= <- <-].
  assert (Hfree : forall u, In u (users db) ->
            User.username u <> UserCreate.username user
            /\ User.email u <> UserCreate.email user).
  { intros u Hin.
    destruct (String.eqb_spec (User.username u) (UserCreate.username user)) as [Hx|Hx];
      destruct (String.eqb_spec (User.email u) (UserCreate.email user)) as [Hy|Hy];
      try (split; assumption);
      exfalso; apply Bool.not_true_iff_false in E; apply E;
      apply existsb_exists; exists u; (split; [exact Hin|]); cbn;
      apply orb_true_iff;
      first [ left; now apply String.eqb_eq | right; now apply String.eqb_eq ]. }
  rewrite List.Forall_forall in Hub.
  unfold wf_db. cbn [users tasks users_id_seq tasks_id_seq].
  repeat split; auto.
  - apply NoDup_map_snoc; [exact Hu|]. intros u Hin. cbn.
    specialize (Hub u Hin). lia.
  - apply List.Forall_app. split.
    + apply List.Forall_forall. intros u Hin. specialize (Hub u Hin). lia.
    + constructor; [cbn; lia | constructor].
  - apply NoDup_map_snoc; [exact Hn|]. intros u Hin. now apply Hfree.
  - apply NoDup_map_snoc; [exact He|]. intros u Hin. now apply Hfree.
Qed.

Lemma wf_create_task env user_id task db db_task db' :
  wf_db db -> crud.create_task env user_id task db = (Return db_task, db') ->
  wf_db db'.
Proof.
  intros (Ht & Htb & Hu & Hub & Hn & He) [= <- <-].
  rewrite List.Forall_forall in Htb.
  unfold wf_db. cbn [users tasks users_id_seq tasks_id_seq].
  repeat split; auto.
  - apply NoDup_map_snoc; [exact Ht|]. intros t Hin. cbn.
    specialize (Htb t Hin). lia.
  - apply List.Forall_app. split.
    + apply List.Forall_forall. intros t Hin. specialize (Htb t Hin). lia.
    + constructor; [cbn; lia | constructor].
Qed.

Lemma update_row_ids row db :
  map Task.id (tasks (crud.update_row row db)) = map Task.id (tasks db).
Proof.
  unfold crud.update_row. cbn [tasks]. rewrite map_map. apply map_ext.
  intros t. now destruct (Z.eqb_spec (Task.id t) (Task.id row)).
Qed.

Lemma wf_update_row row db : wf_db db -> wf_db (crud.update_row row db).
Proof.
  intros (Ht & Htb & Hu & Hub & Hn & He). unfold wf_db.
  rewrite update_row_ids. cbn [users tasks users_id_seq tasks_id_seq crud.update_row].
  repeat split; auto.
  rewrite List.Forall_forall in *. intros t Hin.
  apply in_map_iff in Hin as (t0 & <- & Hin).
  destruct (Z.eqb_spec (Task.id t0) (Task.id row)) as [<-|]; auto.
Qed.

Lemma wf_delete_row task_id db : wf_db db -> wf_db (crud.delete_row task_id db).
Proof.
  intros (Ht & Htb & Hu & Hub & Hn & He). unfold wf_db.
  cbn [users tasks users_id_seq tasks_id_seq crud.delete_row].
  repeat split; auto.
  - now apply NoDup_map_filter.
  - rewrite List.Forall_forall in *. intros t Hin.
    apply filter_In in Hin as [Hin _]. auto.
Qed.

Lemma wf_update_task env task u db task' db' :
  wf_db db -> crud.update_task env task u db = (Return task', db') -> wf_db db'.
Proof.
  intros Hwf E. apply update_task_Return in E as (title & _ & Hcase).
  destruct Hcase as [(_ & _ & ->) | (_ & ->)]; [exact Hwf|].
  now apply wf_update_row.
Qed.

(** ** What each mutating handler does to the store *)

Lemma register_store `{Hasher} env user db :
  snd (main.register env user db) = db
  \/ exists db_user,
      main.register env user db = (Return db_user, snd (main.register env user db))
      /\ crud.create_user env user db
         = (Return db_user, snd (main.register env user db))
      /\ crud.get_user_by_username (Some (UserCreate.username user)) db = None
      /\ crud.get_user_by_email (UserCreate.email user) db = None.
Proof.
  unfold main.register. rewrite bind_query.
  destruct (crud.get_user_by_username _ db) eqn:En; [now left|].
  rewrite bind_query.
  destruct (crud.get_user_by_email _ db) eqn:Ee; [now left|].
  destruct (crud.create_user env user db) as [[u|e] db'] eqn:E.
  - right. exists u. auto.
  - apply create_user_Raise in E as [_ ->]. now left.
Qed.

Lemma create_task_handler_unfold env task current_user db :
  main.create_task env task current_user db =
  match crud.get_user_by_username (TokenData.username current_user) db with
  | None => (Raise (HTTPException 404 "User not found"), db)
  | Some user =>
      let db_task := fst (crud.create_task env (User.id user) task db) in
      (Return (TaskResponse.mk (TaskCreate.title task)
                 (TaskCreate.description task) (TaskCreate.status task)
                 (TaskCreate.priority task) (TaskCreate.due_date task)
                 (tasks_id_seq db + 1) (User.id user) None
                 (db_now env) (db_now env)),
       mkDB (users db)
            (tasks db ++ [Task.mk (tasks_id_seq db + 1) (User.id user)
                            (TaskCreate.title task) (TaskCreate.description task)
                            (Some (TaskCreate.status task))
                            (Some (TaskCreate.priority task))
                            (TaskCreate.due_date task) None
                            (db_now env) (db_now env)])
            (users_id_seq db) (tasks_id_seq db + 1))
  end.
Proof.
  unfold main.create_task. rewrite bind_query.
  now destruct (crud.get_user_by_username _ db).
Qed.

Lemma update_task_handler_store env task_id task_update current_user db :
  snd (main.update_task env task_id task_update current_user db) = db
  \/ exists task user row,
      crud.get_task task_id db = Some task
      /\ crud.get_user_by_username (TokenData.username current_user) db = Some user
      /\ Task.user_id task = User.id user
      /\ crud.update_task env task task_update db
         = (Return row,
            snd (main.update_task env task_id task_update current_user db)).
Proof.
  rewrite update_task_handler_unfold.
  destruct (crud.get_task task_id db) as [task|] eqn:Et; [|now left].
  destruct (crud.get_user_by_username _ db) as [user|] eqn:Eu; [|now left].
  destruct (Z.eqb_spec (Task.user_id task) (User.id user)) as [Ho|]; [|now left].
  unfold bind.
  destruct (crud.update_task env task task_update db) as [[row|e] db1] eqn:E.
  - right. exists task, user, row. repeat split; auto.
    now destruct (model_validate_cases row db1) as [[r ->] | ->].
  - apply update_task_Raise in E as (_ & -> & _). now left.
Qed.

Lemma delete_task_handler_store task_id current_user db :
  (snd (main.delete_task task_id current_user db) = db
   /\ exists e, fst (main.delete_task task_id current_user db) = Raise e)
  \/ exists task user,
      crud.get_task task_id db = Some task
      /\ crud.get_user_by_username (TokenData.username current_user) db = Some user
      /\ Task.user_id task = User.id user
      /\ main.delete_task task_id current_user db
         = (Return tt, crud.delete_row task_id db).
Proof.
  rewrite delete_task_unfold.
  destruct (crud.get_task task_id db) as [task|] eqn:Et; [|left; eauto].
  destruct (crud.get_user_by_username _ db) as [user|] eqn:Eu; [|left; eauto].
  destruct (Z.eqb_spec (Task.user_id task) (User.id user)) as [Ho|];
    [|left; eauto].
  right. exists task, user. repeat split; auto.
  unfold crud.delete_task, crud.get_task in *.
  apply find_some in Et as [_ Hid]. apply Z.eqb_eq in Hid. now rewrite Hid.
Qed.

(** X1: every handler leaves a well-formed store well formed: the primary
    keys stay unique and below their sequences, and usernames and emails stay
    unique, whatever the request and whether it succeeds or fails. *)
Theorem handlers_keep_wf `{Hasher} env db :
  wf_db db ->
  (forall user, wf_db (snd (main.register env user db)))
  /\ (forall task current_user,
      wf_db (snd (main.create_task env task current_user db)))
  /\ (forall task_id task_update current_user,
      wf_db (snd (main.update_task env task_id task_update current_user db)))
  /\ (forall task_id current_user,
      wf_db (snd (main.delete_task task_id current_user db))).
Proof.
  intros Hwf. split; [|split; [|split]].
  - intros user. destruct (register_store env user db)
      as [-> | (u & _ & E & _)]; [exact Hwf|].
    eapply wf_create_user; eauto.
  - intros task current_user. rewrite create_task_handler_unfold.
    destruct (crud.get_user_by_username _ db) as [user|]; [|exact Hwf].
    cbn [snd]. eapply (wf_create_task env (User.id user) task db); [exact Hwf|].
    reflexivity.
  - intros task_id task_update current_user.
    destruct (update_task_handler_store env task_id task_update current_user db)
      as [-> | (task & user & row & _ & _ & _ & E)]; [exact Hwf|].
    eapply wf_update_task; eauto.
  - intros task_id current_user.
    destruct (delete_task_handler_store task_id current_user db)
      as [[-> _] | (task & user & _ & _ & _ & ->)]; [exact Hwf|].
    now apply wf_delete_row.
Qed.

Lemma sample_db_tasks_wf : wf_db sample.db_tasks.
Proof.
  unfold wf_db. cbn.
  repeat split; repeat constructor; cbn; try lia;
    intros Hin; repeat (destruct Hin as [Hin|Hin]; try discriminate Hin);
    try contradiction; try lia.
Qed.

Lemma handlers_keep_wf_witness :
  wf_db sample.db_tasks
  /\ wf_db (snd (main.delete_task 1 sample.alice_token sample.db_tasks)).
Proof.
  split; [exact sample_db_tasks_wf|].
  apply (handlers_keep_wf (H:=sample.hasher) sample.env1 sample.db_tasks
           sample_db_tasks_wf).
Defined.

(** X2: the handlers that only read ([login], [GET /tasks],
    [GET /tasks/{id}], the summary and [GET /users/me]) never change the
    store, whether they answer or fail. *)
Theorem reading_handlers_leave_store `{Hasher} `{security.Signer}
    settings env db :
  (forall username password,
      snd (main.login settings env username password db) = db)
  /\ (forall status current_user,
      snd (main.list_tasks status current_user db) = db)
  /\ (forall task_id current_user,
      snd (main.get_task task_id current_user db) = db)
  /\ (forall current_user, snd (main.get_task_summary current_user db) = db)
  /\ (forall current_user,
      snd (main.get_current_user_info current_user db) = db).
Proof.
  repeat split.
  - intros username password. unfold main.login. rewrite bind_query.
    destruct (crud.get_user_by_username _ db); [|reflexivity].
    now destruct (verify_password _ _).
  - intros status current_user. unfold main.list_tasks. rewrite bind_query.
    destruct (crud.get_user_by_username _ db); [|reflexivity].
    rewrite bind_query. apply model_validate_list_pure.
  - intros task_id current_user. rewrite get_task_unfold.
    destruct (crud.get_task task_id db) as [task|]; [|reflexivity].
    destruct (crud.get_user_by_username _ db); [|reflexivity].
    destruct (_ =? _); [|reflexivity].
    now destruct (model_validate_cases task db) as [[r ->] | ->].
  - intros current_user. unfold main.get_task_summary. rewrite bind_query.
    destruct (crud.get_user_by_username _ db) as [user|]; [|reflexivity].
    rewrite bind_attempt.
    now destruct (crud.get_task_summary (User.id user) db).
  - intros current_user. unfold main.get_current_user_info. rewrite bind_query.
    now destruct (crud.get_user_by_username _ db).
Qed.

(** ** Round trips *)

Lemma wf_fresh_task_id db :
  wf_db db ->
  Forall (fun t => (Task.id t =? tasks_id_seq db + 1) = false) (tasks db).
Proof.
  intros (_ & Htb & _). rewrite List.Forall_forall in *. intros t Hin.
  specialize (Htb t Hin). apply Z.eqb_neq. lia.
Qed.

(** X3: in a well-formed store, a task that [POST /tasks] answered is what
    [GET /tasks/{id}] answers to the same user right after, and every task
    that could be looked up before still is, unchanged. *)
Theorem create_then_get env task current_user db r db' :
  wf_db db ->
  main.create_task env task current_user db = (Return r, db') ->
  main.get_task (TaskResponse.id r) current_user db' = (Return r, db')
  /\ (forall task_id t,
      crud.get_task task_id db = Some t -> crud.get_task task_id db' = Some t).
Proof.
  intros Hwf. rewrite create_task_handler_unfold.
  destruct (crud.get_user_by_username _ db) as [user|] eqn:Eu; [|discriminate].
  cbn zeta. intros [= <- <-]. split.
  - rewrite get_task_unfold. cbn [TaskResponse.id].
    unfold crud.get_task at 1. cbn [tasks].
    rewrite find_app_fresh;
      [|exact (wf_fresh_task_id db Hwf) | apply Z.eqb_refl].
    change (crud.get_user_by_username (TokenData.username current_user)
              (mkDB (users db) _ (users_id_seq db) (tasks_id_seq db + 1)))
      with (crud.get_user_by_username (TokenData.username current_user) db).
    rewrite Eu. cbn [Task.user_id]. rewrite Z.eqb_refl. reflexivity.
  - intros task_id t. unfold crud.get_task. cbn [tasks]. apply find_app_Some.
Qed.

Lemma create_then_get_witness :
  wf_db sample.db_users
  /\ exists r db',
      main.create_task sample.env0 (sample.task_T TODO) sample.alice_token
        sample.db_users = (Return r, db')
      /\ main.get_task (TaskResponse.id r) sample.alice_token db' = (Return r, db').
Proof.
  assert (Hwf : wf_db sample.db_users).
  { unfold wf_db. cbn.
    repeat split; repeat constructor; cbn; try lia;
      intros Hin; repeat (destruct Hin as [Hin|Hin]; try discriminate Hin);
      try contradiction; try lia. }
  split; [exact Hwf|]. eexists _, _. split; [reflexivity|].
  apply (create_then_get sample.env0 (sample.task_T TODO) sample.alice_token
           sample.db_users _ _ Hwf eq_refl).
Defined.

(** X4: once [DELETE /tasks/{id}] has answered 204, [GET] on that id answers
    404 to anyone, every other id is looked up as before, and no user row is
    touched. *)
Theorem delete_then_get task_id current_user db db' :
  main.delete_task task_id current_user db = (Return tt, db') ->
  (forall anyone,
      main.get_task task_id anyone db'
      = (Raise (HTTPException 404 "Task not found"), db'))
  /\ (forall other, other <> task_id ->
                    crud.get_task other db' = crud.get_task other db)
  /\ users db' = users db.
Proof.
  intros E.
  destruct (delete_task_handler_store task_id current_user db)
    as [[_ [e He]] | (task & user & _ & _ & _ & E')].
  { rewrite E in He. discriminate. }
  rewrite E' in E. injection E as <-. split; [|split].
  - intros anyone. rewrite get_task_unfold. unfold crud.get_task at 1.
    cbn [tasks crud.delete_row]. now rewrite find_deleted.
  - intros other Hne. unfold crud.get_task. cbn [tasks crud.delete_row].
    now apply find_not_deleted.
  - reflexivity.
Qed.

Lemma delete_then_get_witness :
  main.delete_task 1 sample.alice_token sample.db_tasks
    = (Return tt, crud.delete_row 1 sample.db_tasks)
  /\ main.get_task 1 sample.alice_token (crud.delete_row 1 sample.db_tasks)
     = (Raise (HTTPException 404 "Task not found"),
        crud.delete_row 1 sample.db_tasks).
Proof.
  assert (E : main.delete_task 1 sample.alice_token sample.db_tasks
              = (Return tt, crud.delete_row 1 sample.db_tasks)) by reflexivity.
  split; [exact E|].
  apply (delete_then_get 1 sample.alice_token sample.db_tasks _ E).
Defined.

Lemma register_Return `{Hasher} env user db db_user db' :
  main.register env user db = (Return db_user, db') ->
  (forall u, In u (users db) -> User.username u <> UserCreate.username user)
  /\ (forall u, In u (users db) -> User.email u <> UserCreate.email user)
  /\ users db' = users db ++ [db_user]
  /\ tasks db' = tasks db
  /\ User.username db_user = UserCreate.username user
  /\ User.email db_user = UserCreate.email user
  /\ User.hashed_password db_user
     = get_password_hash (salt env) (UserCreate.password user).
Proof.
  unfold main.register. rewrite bind_query.
  destruct (crud.get_user_by_username _ db) eqn:Hn; [discriminate|].
  rewrite bind_query.
  destruct (crud.get_user_by_email _ db) eqn:He; [discriminate|].
  pose proof (proj1 (get_user_by_username_None _ _) Hn) as Hn'.
  pose proof (proj1 (get_user_by_email_None _ _) He) as He'.
  unfold crud.create_user. destruct (existsb _ _); [discriminate|].
  intros [= <- <-]. cbn. auto 10.
Qed.

(** X5: whatever hasher verifies the hashes it produces, a user who has just
    registered logs in with the same username and password, at any later
    time, and gets a bearer token. *)
Theorem register_then_login `{Hasher} `{security.Signer}
    settings env env' user db db_user db' :
  (forall salt password,
      verify_password password (get_password_hash salt password) = true) ->
  main.register env user db = (Return db_user, db') ->
  exists access_token,
    main.login settings env' (UserCreate.username user)
      (UserCreate.password user) db'
    = (Return (Token.mk access_token "bearer"), db').
Proof.
  intros Hverify E.
  apply register_Return in E as (Hn & _ & Hu & _ & Hname & _ & Hpw).
  unfold main.login. rewrite bind_query.
  assert (Hfind : crud.get_user_by_username (Some (UserCreate.username user)) db'
                  = Some db_user).
  { unfold crud.get_user_by_username. rewrite Hu. apply find_app_fresh.
    - apply List.Forall_forall. intros u Hin. apply String.eqb_neq. now apply Hn.
    - apply String.eqb_eq. exact Hname. }
  rewrite Hfind, Hpw, Hverify. cbn [negb]. eexists. reflexivity.
Qed.

Lemma register_then_login_witness :
  exists access_token,
    main.login (H:=sample.hasher) (H0:=sample.signer) Settings.default sample.env1
      "alice" "password123"
      sample.db_alice
    = (Return (Token.mk access_token "bearer"),
       sample.db_alice).
Proof.
  apply (register_then_login (H:=sample.hasher) (H0:=sample.signer)
           Settings.default sample.env0 sample.env1 sample.alice sample.empty
           sample.alice_row sample.db_alice).
  - intros s p. cbn. apply String.eqb_refl.
  - reflexivity.
Defined.

(** X6: after a registration has succeeded, a second one with the same
    username fails with 400 "Username already registered", and one with
    another, still free username but the same email fails with 400 "Email
    already registered"; neither changes the store. *)
Theorem register_twice `{Hasher} env env' user user' db db_user db' :
  main.register env user db = (Return db_user, db') ->
  (UserCreate.username user' = UserCreate.username user ->
   main.register env' user' db'
   = (Raise (HTTPException 400 "Username already registered"), db'))
  /\ (crud.get_user_by_username (Some (UserCreate.username user')) db' = None ->
      UserCreate.email user' = UserCreate.email user ->
      main.register env' user' db'
      = (Raise (HTTPException 400 "Email already registered"), db')).
Proof.
  intros E. apply register_Return in E as (_ & _ & Hu & _ & Hname & Hemail & _).
  assert (Hin : In db_user (users db')) by (rewrite Hu; apply in_app_iff; right; now left).
  unfold main.register. rewrite bind_query. split.
  - intros Heq.
    destruct (crud.get_user_by_username _ db') eqn:En; [reflexivity|].
    rewrite get_user_by_username_None in En. destruct (En db_user Hin). congruence.
  - intros -> Heq. rewrite bind_query.
    destruct (crud.get_user_by_email _ db') eqn:Ee; [reflexivity|].
    rewrite get_user_by_email_None in Ee. destruct (Ee db_user Hin). congruence.
Qed.

Lemma register_twice_witness :
  main.register (H:=sample.hasher) sample.env1 sample.alice
    sample.db_alice
  = (Raise (HTTPException 400 "Username already registered"),
     sample.db_alice).
Proof.
  apply (register_twice (H:=sample.hasher) sample.env0 sample.env1 sample.alice
           sample.alice sample.empty
           sample.alice_row sample.db_alice
           eq_refl).
  reflexivity.
Defined.

(** X7: [GET /users/me] with the username of a user who has just registered
    answers the very row the registration returned; with a username that no
    user has it answers 404 "User not found". *)
Theorem register_then_me `{Hasher} env user db db_user db' :
  main.register env user db = (Return db_user, db') ->
  main.get_current_user_info
    (TokenData.mk (Some (UserCreate.username user))) db'
  = (Return db_user, db')
  /\ (forall current_user,
      crud.get_user_by_username (TokenData.username current_user) db' = None ->
      main.get_current_user_info current_user db'
      = (Raise (HTTPException 404 "User not found"), db')).
Proof.
  intros E. apply register_Return in E as (Hn & _ & Hu & _ & Hname & _).
  unfold main.get_current_user_info. split.
  - rewrite bind_query. cbn [TokenData.username].
    unfold crud.get_user_by_username. rewrite Hu, find_app_fresh; [reflexivity| |].
    + apply List.Forall_forall. intros u Hin. apply String.eqb_neq. now apply Hn.
    + apply String.eqb_eq. exact Hname.
  - intros current_user Hnone. rewrite bind_query, Hnone. reflexivity.
Qed.

Lemma register_then_me_witness :
  main.get_current_user_info sample.alice_token
    sample.db_alice
  = (Return sample.alice_row, sample.db_alice).
Proof.
  apply (register_then_me (H:=sample.hasher) sample.env0 sample.alice
           sample.empty _ _ eq_refl).
Defined.

(** ** Serialising rows *)

Lemma model_validate_Return task db r db' :
  TaskResponse.model_validate task db = (Return r, db') ->
  row_of r = task /\ db' = db.
Proof.
  unfold TaskResponse.model_validate.
  destruct task as [i u ti de [st|] [pr|] du co cr up]; cbn; try discriminate.
  now intros [= <- <-].
Qed.

Lemma model_validate_row_of r db :
  TaskResponse.model_validate (row_of r) db = (Return r, db).
Proof. now destruct r. Qed.

Lemma model_validate_Raise task db :
  unserialisable task
  <-> TaskResponse.model_validate task db = (Raise ResponseValidationError, db).
Proof.
  unfold unserialisable, TaskResponse.model_validate.
  destruct (Task.status task), (Task.priority task); cbn; split;
    try discriminate; try reflexivity; try (intros [|]; discriminate); auto.
Qed.

Lemma model_validate_list_Return l db rs db' :
  TaskResponse.model_validate_list l db = (Return rs, db') ->
  map row_of rs = l /\ db' = db.
Proof.
  revert rs db'. induction l as [|task l IH]; intros rs db'.
  - now intros [= <- <-].
  - cbn [TaskResponse.model_validate_list]. unfold bind.
    destruct (TaskResponse.model_validate task db) as [[r|e] db1] eqn:E1;
      [|discriminate].
    apply model_validate_Return in E1 as [<- ->].
    destruct (TaskResponse.model_validate_list l db) as [[rs'|e] db2] eqn:E2;
      [|discriminate].
    destruct (IH rs' db2 eq_refl) as [<- ->]. now intros [= <- <-].
Qed.

Lemma model_validate_list_Raise l db :
  Exists unserialisable l
  <-> TaskResponse.model_validate_list l db = (Raise ResponseValidationError, db).
Proof.
  induction l as [|task l IH].
  - split; [intros Hex; inversion Hex | discriminate].
  - cbn [TaskResponse.model_validate_list]. unfold bind.
    destruct (model_validate_cases task db) as [[r E] | E]; rewrite E.
    + assert (Hok : ~ unserialisable task).
      { intros Hu. apply (model_validate_Raise task db) in Hu. congruence. }
      destruct (TaskResponse.model_validate_list l db) as [[rs|e] db1] eqn:E2.
      * split; [|discriminate]. intros Hex. apply List.Exists_cons in Hex as [|Hex];
          [contradiction|]. apply IH in Hex. discriminate.
      * split.
        -- intros Hex. apply List.Exists_cons in Hex as [|Hex]; [contradiction|].
           apply IH in Hex. now injection Hex as -> ->.
        -- intros [= -> ->]. apply List.Exists_cons. right. now apply IH.
    + split; [reflexivity|]. intros _. apply List.Exists_cons. left.
      now apply (model_validate_Raise task db).
Qed.

(** ** Listing *)

(** X8: [get_user_tasks] returns exactly the rows of the table that belong to
    the user and, when a status is given, have that status; with no status
    it returns all of the user's rows.  It never returns another user's
    row. *)
Theorem get_user_tasks_In user_id status db t :
  In t (crud.get_user_tasks user_id status db)
  <-> In t (tasks db)
      /\ Task.user_id t = user_id
      /\ (forall s, status = Some s -> Task.status t = Some s).
Proof.
  unfold crud.get_user_tasks. destruct status as [s|]; cbn zeta.
  - rewrite !filter_In, Z.eqb_eq, bool_decide_eq_true. split.
    + intros [[Hin Hu] Hs]. repeat split; auto. now intros s' [= <-].
    + intros (Hin & Hu & Hs). auto.
  - rewrite filter_In, Z.eqb_eq. split.
    + intros [Hin Hu]. repeat split; auto. discriminate.
    + intros (Hin & Hu & _). auto.
Qed.

(** X9: for a known user, [GET /tasks] fails on a response validation error
    (a 500) exactly when one of the rows it lists holds no status or no
    priority; when it answers, the answer shows the listed rows, all of them,
    in table order. *)
Theorem list_tasks_outcome status current_user db user :
  crud.get_user_by_username (TokenData.username current_user) db = Some user ->
  (Exists unserialisable (crud.get_user_tasks (User.id user) status db)
   <-> main.list_tasks status current_user db
       = (Raise ResponseValidationError, db))
  /\ (forall rs db',
      main.list_tasks status current_user db = (Return rs, db') ->
      map row_of rs = crud.get_user_tasks (User.id user) status db)
  /\ (forall e db',
      main.list_tasks status current_user db = (Raise e, db') ->
      e = ResponseValidationError).
Proof.
  intros Eu. unfold main.list_tasks. rewrite bind_query, Eu, bind_query.
  split; [apply model_validate_list_Raise | split].
  - intros rs db' E. now apply model_validate_list_Return in E.
  - intros e db'.
    generalize (crud.get_user_tasks (User.id user) status db). intros l.
    revert e db'. induction l as [|task l IH]; intros e db'; [discriminate|].
    cbn [TaskResponse.model_validate_list]. unfold bind.
    destruct (model_validate_cases task db) as [[r ->] | ->];
      [|now intros [= <- _]].
    destruct (TaskResponse.model_validate_list l db) as [[rs|e'] db1] eqn:E2;
      [discriminate|].
    intros [= <- <-]. eapply IH. reflexivity.
Qed.

Lemma list_tasks_outcome_witness :
  main.list_tasks None sample.alice_token sample.db_null_status
    = (Raise ResponseValidationError, sample.db_null_status)
  /\ exists rs,
      main.list_tasks (Some TODO) sample.alice_token sample.db_null_status
        = (Return rs, sample.db_null_status)
      /\ map row_of rs
         = crud.get_user_tasks 1 (Some TODO) sample.db_null_status.
Proof.
  split.
  - apply (list_tasks_outcome None sample.alice_token sample.db_null_status
             sample.alice_row eq_refl).
    apply List.Exists_cons. left. left. reflexivity.
  - eexists. split; [reflexivity|].
    destruct (list_tasks_outcome (Some TODO) sample.alice_token
                sample.db_null_status sample.alice_row eq_refl)
      as (_ & Hrows & _).
    exact (Hrows _ _ eq_refl).
Defined.

(** ** Updating *)

Lemma get_user_by_username_users username db db' :
  users db' = users db ->
  crud.get_user_by_username username db' = crud.get_user_by_username username db.
Proof. intros E. unfold crud.get_user_by_username. now rewrite E. Qed.

Lemma update_task_users env task u db task' db' :
  crud.update_task env task u db = (Return task', db') -> users db' = users db.
Proof.
  intros E. apply update_task_Return in E as (title & _ & Hcase).
  now destruct Hcase as [(_ & _ & ->) | (_ & ->)].
Qed.

Lemma update_task_owner env task u db task' db' :
  crud.update_task env task u db = (Return task', db') ->
  Task.id task' = Task.id task /\ Task.user_id task' = Task.user_id task.
Proof.
  intros E. apply update_task_Return in E as (title & _ & Hcase).
  now destruct Hcase as [(-> & _) | (-> & _)].
Qed.

Lemma get_task_id task_id db task :
  crud.get_task task_id db = Some task -> In task (tasks db) /\ Task.id task = task_id.
Proof.
  unfold crud.get_task. intros E. apply find_some in E as [Hin Hid].
  now apply Z.eqb_eq in Hid.
Qed.

(** X10: what [PUT /tasks/{id}] answered is what [GET /tasks/{id}] answers
    to the same user right after: the answer of an update shows the stored
    row. *)
Theorem update_then_get env task_id task_update current_user db r db' :
  main.update_task env task_id task_update current_user db = (Return r, db') ->
  main.get_task task_id current_user db' = (Return r, db').
Proof.
  rewrite update_task_handler_unfold.
  destruct (crud.get_task task_id db) as [task|] eqn:Et; [|discriminate].
  destruct (crud.get_user_by_username _ db) as [user|] eqn:Eu; [|discriminate].
  destruct (Z.eqb_spec (Task.user_id task) (User.id user)) as [Ho|];
    [|discriminate].
  unfold bind.
  destruct (crud.update_task env task task_update db) as [[row|e] db1] eqn:E;
    [|discriminate].
  intros Ev. apply model_validate_Return in Ev as [Hrow ->].
  destruct (get_task_id _ _ _ Et) as [_ Hid].
  assert (Hstored : crud.get_task task_id db1 = Some row).
  { rewrite <- Hid in Et |- *. exact (update_task_stored _ _ _ _ _ _ Et E). }
  rewrite get_task_unfold, Hstored.
  rewrite (get_user_by_username_users _ db db1 (update_task_users _ _ _ _ _ _ E)).
  rewrite Eu.
  destruct (update_task_owner _ _ _ _ _ _ E) as [_ ->].
  rewrite Ho, Z.eqb_refl, <- Hrow. apply model_validate_row_of.
Qed.

Lemma update_then_get_witness :
  exists r,
    main.update_task sample.env1 1 (sample.set_status (Some COMPLETED))
      sample.alice_token sample.db_tasks = (Return r, sample.db_one_completed)
    /\ main.get_task 1 sample.alice_token sample.db_one_completed
       = (Return r, sample.db_one_completed).
Proof.
  eexists. split; [reflexivity|].
  apply (update_then_get sample.env1 1 (sample.set_status (Some COMPLETED))
           sample.alice_token sample.db_tasks _ _ eq_refl).
Defined.

Lemma update_task_no_fields env task db :
  crud.update_task env task no_fields db = (Return task, db).
Proof.
  rewrite update_task_unfold. cbn.
  assert (assigned_row env task no_fields (Task.title task) = task) as ->
    by now destruct task.
  now rewrite bool_decide_eq_true_2.
Qed.

(** X11: a [PUT] whose body sets no field behaves as the [GET] of the same
    task: the same answer or the same failure, the store untouched, and
    [updated_at] not moved. *)
Theorem update_nothing_is_get env task_id current_user db :
  main.update_task env task_id no_fields current_user db
  = main.get_task task_id current_user db.
Proof.
  rewrite update_task_handler_unfold, get_task_unfold.
  destruct (crud.get_task task_id db) as [task|]; [|reflexivity].
  destruct (crud.get_user_by_username _ db) as [user|]; [|reflexivity].
  destruct (_ =? _); [|reflexivity].
  unfold bind. now rewrite update_task_no_fields.
Qed.

(** X12: when the owner updates an existing task, the request dies on the
    commit (an [IntegrityError], nothing stored) exactly when the body sets
    [title] to null; otherwise the update is committed, and the request
    then fails on the response (the update stays stored) exactly when the
    row is left without a status or a priority, and answers the stored row
    when it has both. *)
Theorem owner_update_outcome env task_id task_update current_user db task user :
  crud.get_task task_id db = Some task ->
  crud.get_user_by_username (TokenData.username current_user) db = Some user ->
  Task.user_id task = User.id user ->
  (TaskUpdate.title task_update = Some None ->
   main.update_task env task_id task_update current_user db
   = (Raise IntegrityError, db))
  /\ (TaskUpdate.title task_update <> Some None ->
      exists row db',
        crud.update_task env task task_update db = (Return row, db')
        /\ crud.get_task task_id db' = Some row
        /\ Task.status row
           = expected_field (TaskUpdate.status task_update) (Task.status task)
        /\ Task.priority row
           = expected_field (TaskUpdate.priority task_update) (Task.priority task)
        /\ (unserialisable row ->
            main.update_task env task_id task_update current_user db
            = (Raise ResponseValidationError, db'))
        /\ (~ unserialisable row ->
            exists r,
              main.update_task env task_id task_update current_user db
              = (Return r, db')
              /\ row_of r = row)).
Proof.
  intros Et Eu Ho. rewrite update_task_handler_unfold, Et, Eu, Ho, Z.eqb_refl.
  unfold bind. split.
  - intros Hnull. rewrite update_task_unfold, Hnull. reflexivity.
  - intros Hnn.
    destruct (crud.update_task env task task_update db) as [[row|e] db1] eqn:E.
    + exists row, db1. split; [reflexivity|].
      destruct (get_task_id _ _ _ Et) as [_ Hid].
      split; [rewrite <- Hid; eapply update_task_stored; eauto; now rewrite Hid|].
      pose proof E as E'. apply update_task_Return in E' as (title & _ & Hcase).
      assert (Hst : Task.status row
                    = expected_field (TaskUpdate.status task_update)
                        (Task.status task)
                    /\ Task.priority row
                       = expected_field (TaskUpdate.priority task_update)
                           (Task.priority task)).
      { destruct Hcase as [(-> & Hrow & _) | (-> & _)]; [|split; reflexivity].
        split; [exact (eq_sym (f_equal Task.status Hrow))
               | exact (eq_sym (f_equal Task.priority Hrow))]. }
      destruct Hst as [Hs Hp]. repeat split; auto.
      * intros Hun. now apply (model_validate_Raise row db1).
      * intros Hok. destruct (model_validate_cases row db1) as [[r Er] | Er].
        -- exists r. split; [exact Er|]. now apply model_validate_Return in Er.
        -- apply (model_validate_Raise row db1) in Er. contradiction.
    + apply update_task_Raise in E as (_ & _ & Hnull). contradiction.
Qed.

Lemma owner_update_outcome_witness :
  main.update_task sample.env1 1 (sample.set_title None) sample.alice_token
    sample.db_tasks = (Raise IntegrityError, sample.db_tasks)
  /\ exists row db',
      crud.update_task sample.env1 sample.task1 (sample.set_status None)
        sample.db_tasks = (Return row, db')
      /\ main.update_task sample.env1 1 (sample.set_status None)
           sample.alice_token sample.db_tasks
         = (Raise ResponseValidationError, db').
Proof.
  split.
  - apply (owner_update_outcome sample.env1 1 (sample.set_title None)
             sample.alice_token sample.db_tasks sample.task1 sample.alice_row
             eq_refl eq_refl eq_refl).
    reflexivity.
  - destruct (owner_update_outcome sample.env1 1 (sample.set_status None)
                sample.alice_token sample.db_tasks sample.task1 sample.alice_row
                eq_refl eq_refl eq_refl) as [_ Hcommit].
    destruct Hcommit as (row & db' & E & _ & Hs & _ & Hfail & _); [discriminate|].
    exists row, db'. split; [exact E|]. apply Hfail. left. exact Hs.
Defined.

(** ** One user's requests and another user's view *)

Lemma same_view_filter user_id db db' :
  List.filter (fun t => Task.user_id t =? user_id) (tasks db')
  = List.filter (fun t => Task.user_id t =? user_id) (tasks db) ->
  same_view user_id db db'.
Proof.
  intros E. unfold same_view, crud.get_task_summary, crud.get_user_tasks.
  cbn zeta. rewrite E. split; reflexivity.
Qed.

Lemma same_view_refl user_id db : same_view user_id db db.
Proof. now apply same_view_filter. Qed.

Lemma filter_update_row_other other row db :
  Task.user_id row <> other ->
  (forall t, In t (tasks db) -> Task.id t = Task.id row -> Task.user_id t <> other) ->
  List.filter (fun t => Task.user_id t =? other) (tasks (crud.update_row row db))
  = List.filter (fun t => Task.user_id t =? other) (tasks db).
Proof.
  intros Hrow. unfold crud.update_row. cbn [tasks].
  induction (tasks db) as [|t l IH]; intros Hall; [reflexivity|].
  cbn [map List.filter]. rewrite IH by (intros; apply Hall; [now right | assumption]).
  destruct (Z.eqb_spec (Task.id t) (Task.id row)) as [Hid|]; [|reflexivity].
  pose proof (Hall t (or_introl eq_refl) Hid) as Ht.
  apply Z.eqb_neq in Ht, Hrow. now rewrite Ht, Hrow.
Qed.

Lemma filter_delete_row_other other task_id db :
  (forall t, In t (tasks db) -> Task.id t = task_id -> Task.user_id t <> other) ->
  List.filter (fun t => Task.user_id t =? other) (tasks (crud.delete_row task_id db))
  = List.filter (fun t => Task.user_id t =? other) (tasks db).
Proof.
  unfold crud.delete_row. cbn [tasks].
  induction (tasks db) as [|t l IH]; intros Hall; [reflexivity|].
  cbn [List.filter].
  destruct (Z.eqb_spec (Task.id t) task_id) as [Hid|]; cbn [negb List.filter];
    rewrite IH by (intros; apply Hall; [now right | assumption]).
  - pose proof (Hall t (or_introl eq_refl) Hid) as Ht.
    apply Z.eqb_neq in Ht. now rewrite Ht.
  - reflexivity.
Qed.

(** In a well-formed store the rows under the id of a looked-up task are
    that task. *)
Lemma wf_rows_of_id db task_id task t :
  wf_db db -> crud.get_task task_id db = Some task ->
  In t (tasks db) -> Task.id t = task_id -> t = task.
Proof.
  intros (Hnd & _) Et Hin Hid. apply get_task_id in Et as [Hin' Hid'].
  apply (NoDup_map_In_inj Task.id (tasks db)); auto. congruence.
Qed.

(** X13: in a well-formed store, nothing a user does through [POST /tasks],
    [PUT /tasks/{id}] or [DELETE /tasks/{id}] changes what any other user
    sees: the other user's listings under every status filter and the other
    user's summary are the same after the request as before it. *)
Theorem other_users_unaffected env current_user db user other :
  wf_db db ->
  crud.get_user_by_username (TokenData.username current_user) db = Some user ->
  other <> User.id user ->
  (forall task,
      same_view other db (snd (main.create_task env task current_user db)))
  /\ (forall task_id task_update,
      same_view other db
        (snd (main.update_task env task_id task_update current_user db)))
  /\ (forall task_id,
      same_view other db (snd (main.delete_task task_id current_user db))).
Proof.
  intros Hwf Eu Hother. split; [|split].
  - intros task. rewrite create_task_handler_unfold, Eu. cbn [snd].
    apply same_view_filter. cbn [tasks]. rewrite List.filter_app. cbn [List.filter].
    cbn [Task.user_id].
    destruct (Z.eqb_spec (User.id user) other); [congruence|].
    apply app_nil_r.
  - intros task_id task_update.
    destruct (update_task_handler_store env task_id task_update current_user db)
      as [-> | (task & user' & row & Et & Eu' & Ho & E)];
      [apply same_view_refl|].
    rewrite Eu in Eu'. injection Eu' as <-.
    pose proof E as E'. apply update_task_Return in E' as (title & _ & Hcase).
    destruct Hcase as [(_ & _ & ->) | (Hrow & ->)]; [apply same_view_refl|].
    destruct (update_task_owner _ _ _ _ _ _ E) as [Hid Hown].
    apply same_view_filter. apply filter_update_row_other.
    + congruence.
    + intros t Hin Ht.
      assert (t = task) as ->; [|congruence].
      apply (wf_rows_of_id db task_id task t Hwf Et Hin).
      apply get_task_id in Et as [_ <-]. congruence.
  - intros task_id.
    destruct (delete_task_handler_store task_id current_user db)
      as [[-> _] | (task & user' & Et & Eu' & Ho & ->)];
      [apply same_view_refl|].
    rewrite Eu in Eu'. injection Eu' as <-. cbn [snd].
    apply same_view_filter. apply filter_delete_row_other.
    intros t Hin Ht.
    assert (t = task) as ->; [|congruence].
    exact (wf_rows_of_id db task_id task t Hwf Et Hin Ht).
Qed.

Lemma other_users_unaffected_witness :
  same_view 1 sample.db_tasks
    (snd (main.create_task sample.env1 (sample.task_T COMPLETED)
            sample.bob_token sample.db_tasks)).
Proof.
  apply (other_users_unaffected sample.env1 sample.bob_token sample.db_tasks
           (User.mk 2 "bob" "bob@x.com" "$hunter2hunter2" true 1001 1001) 1
           sample_db_tasks_wf eq_refl).
  cbn. lia.
Defined.

(** ** The summary and the listings *)

(** X14: the counters of the summary are the lengths of the listings: the
    total is the number of tasks [GET /tasks] lists for the user without a
    filter, and each status counter is the number it lists under that
    status. *)
Theorem summary_matches_listing user_id db :
  exists s,
    crud.get_task_summary user_id db = Return s
    /\ TaskSummary.total_tasks s
       = Z.of_nat (length (crud.get_user_tasks user_id None db))
    /\ TaskSummary.completed_tasks s
       = Z.of_nat (length (crud.get_user_tasks user_id (Some COMPLETED) db))
    /\ TaskSummary.in_progress_tasks s
       = Z.of_nat (length (crud.get_user_tasks user_id (Some IN_PROGRESS) db))
    /\ TaskSummary.todo_tasks s
       = Z.of_nat (length (crud.get_user_tasks user_id (Some TODO) db)).
Proof.
  destruct (summary_counters user_id db) as (s & E & Ht & Hc & Hi & Hd).
  exists s. split; [exact E|]. rewrite Ht, Hc, Hi, Hd.
  unfold crud.get_user_tasks. cbn zeta.
  rewrite !count_filter_filter, length_filter_count. repeat split.
Qed.

Lemma count_rows_snoc {A} (p : A -> bool) (l : list A) x :
  count_rows p (l ++ [x]) = count_rows p l + (if p x then 1 else 0).
Proof.
  induction l as [|y l IH]; cbn [app count_rows]; [lia|]. rewrite IH. lia.
Qed.

(** X15: creating a task for a user raises that user's total by one and the
    counter of the task's status by one, and leaves the other two counters
    as they were. *)
Theorem summary_after_create env user_id task db db_task db' :
  crud.create_task env user_id task db = (Return db_task, db') ->
  exists s s',
    crud.get_task_summary user_id db = Return s
    /\ crud.get_task_summary user_id db' = Return s'
    /\ TaskSummary.total_tasks s' = TaskSummary.total_tasks s + 1
    /\ TaskSummary.completed_tasks s'
       = TaskSummary.completed_tasks s
         + (if bool_decide (TaskCreate.status task = COMPLETED) then 1 else 0)
    /\ TaskSummary.in_progress_tasks s'
       = TaskSummary.in_progress_tasks s
         + (if bool_decide (TaskCreate.status task = IN_PROGRESS) then 1 else 0)
    /\ TaskSummary.todo_tasks s'
       = TaskSummary.todo_tasks s
         + (if bool_decide (TaskCreate.status task = TODO) then 1 else 0).
Proof.
  intros E0.
  assert (Hrow : tasks db' = tasks db ++ [db_task]
                 /\ Task.user_id db_task = user_id
                 /\ Task.status db_task = Some (TaskCreate.status task))
    by (injection E0 as <- <-; auto).
  destruct Hrow as (Htasks & Hu & Hs).
  destruct (summary_counters user_id db) as (s & E & Ht & Hc & Hi & Hd).
  destruct (summary_counters user_id db') as (s' & E' & Ht' & Hc' & Hi' & Hd').
  exists s, s'. split; [exact E|]. split; [exact E'|].
  rewrite Ht, Hc, Hi, Hd, Ht', Hc', Hi', Hd'.
  rewrite Htasks, !count_rows_snoc.
  unfold owned_by, owned_with_status. rewrite Hu, Hs.
  rewrite Z.eqb_refl. cbn [andb].
  destruct (TaskCreate.status task); repeat case_bool_decide;
    try congruence; repeat split; lia.
Qed.

Lemma summary_after_create_witness :
  exists s s',
    crud.get_task_summary 1 sample.db_tasks = Return s
    /\ crud.get_task_summary 1
         (snd (crud.create_task sample.env1 1 (sample.task_T COMPLETED)
                 sample.db_tasks)) = Return s'
    /\ TaskSummary.total_tasks s' = TaskSummary.total_tasks s + 1.
Proof.
  destruct (summary_after_create sample.env1 1 (sample.task_T COMPLETED)
              sample.db_tasks _ _ eq_refl) as (s & s' & E & E' & Ht & _).
  exists s, s'. auto.
Defined.

(** ** The three lookups of a user *)

(** X17: in a well-formed store, the row a registration returned is the row
    found under its id, under its username and under its email. *)
Theorem register_lookups_agree `{Hasher} env user db db_user db' :
  wf_db db ->
  main.register env user db = (Return db_user, db') ->
  crud.get_user (User.id db_user) db' = Some db_user
  /\ crud.get_user_by_username (Some (User.username db_user)) db' = Some db_user
  /\ crud.get_user_by_email (User.email db_user) db' = Some db_user.
Proof.
  intros (_ & _ & _ & Hub & _) E. pose proof E as E'.
  apply register_Return in E' as (Hn & He & Hu & _ & Hname & Hemail & _).
  assert (Hid : User.id db_user = users_id_seq db + 1).
  { revert E. unfold main.register. rewrite bind_query.
    destruct (crud.get_user_by_username _ db); [discriminate|].
    rewrite bind_query. destruct (crud.get_user_by_email _ db); [discriminate|].
    unfold crud.create_user. destruct (existsb _ _); [discriminate|].
    now intros [= <- _]. }
  rewrite List.Forall_forall in Hub.
  unfold crud.get_user, crud.get_user_by_username, crud.get_user_by_email.
  rewrite Hu. repeat split; apply find_app_fresh;
    try apply List.Forall_forall; try intros u Hin.
  - apply Z.eqb_neq. specialize (Hub u Hin). lia.
  - apply Z.eqb_refl.
  - apply String.eqb_neq. rewrite Hname. now apply Hn.
  - apply String.eqb_refl.
  - apply String.eqb_neq. rewrite Hemail. now apply He.
  - apply String.eqb_refl.
Qed.

Lemma sample_empty_wf : wf_db sample.empty.
Proof. unfold wf_db. cbn. repeat split; constructor. Qed.

Lemma register_lookups_agree_witness :
  crud.get_user 1 sample.db_alice = Some sample.alice_row
  /\ crud.get_user_by_email "alice@x.com" sample.db_alice = Some sample.alice_row.
Proof.
  destruct (register_lookups_agree (H:=sample.hasher) sample.env0 sample.alice
              sample.empty sample.alice_row sample.db_alice
              sample_empty_wf eq_refl) as (Hid & _ & Hemail).
  split; [exact Hid | exact Hemail].
Defined.

(** ** The invariant of [completed_at] over the whole table *)

Lemma Forall_update_row (P : Task.t -> Prop) row db :
  P row -> Forall P (tasks db) -> Forall P (tasks (crud.update_row row db)).
Proof.
  intros Hrow Hall. unfold crud.update_row. cbn [tasks].
  rewrite List.Forall_forall in *. intros t Hin.
  apply in_map_iff in Hin as (t0 & <- & Hin).
  destruct (Task.id t0 =? Task.id row); auto.
Qed.

(** X18: if every stored task satisfies "completed_at is non-null if and only
    if the status is completed", then so does every stored task after any
    [PUT /tasks/{id}], after any [DELETE /tasks/{id}], and after any
    [POST /tasks] whose body does not ask for the status [completed]. *)
Theorem store_keeps_completed_at_invariant env db :
  Forall completed_at_invariant (tasks db) ->
  (forall task_id task_update current_user,
      Forall completed_at_invariant
        (tasks (snd (main.update_task env task_id task_update current_user db))))
  /\ (forall task_id current_user,
      Forall completed_at_invariant
        (tasks (snd (main.delete_task task_id current_user db))))
  /\ (forall task current_user,
      TaskCreate.status task <> COMPLETED ->
      Forall completed_at_invariant
        (tasks (snd (main.create_task env task current_user db)))).
Proof.
  intros Hall. split; [|split].
  - intros task_id task_update current_user.
    destruct (update_task_handler_store env task_id task_update current_user db)
      as [-> | (task & user & row & Et & _ & _ & E)]; [exact Hall|].
    assert (Hrow : completed_at_invariant row).
    { destruct (TaskUpdate.status task_update) as [s|] eqn:Es.
      - eapply update_task_sets_invariant; eauto.
      - eapply update_task_keeps_invariant; eauto.
        apply get_task_id in Et as [Hin _].
        rewrite List.Forall_forall in Hall. now apply Hall. }
    pose proof E as E'. apply update_task_Return in E' as (title & _ & Hcase).
    destruct Hcase as [(_ & _ & ->) | (_ & ->)]; [exact Hall|].
    now apply Forall_update_row.
  - intros task_id current_user.
    destruct (delete_task_handler_store task_id current_user db)
      as [[-> _] | (task & user & _ & _ & _ & ->)]; [exact Hall|].
    cbn [snd crud.delete_row tasks]. rewrite List.Forall_forall in *.
    intros t Hin. apply filter_In in Hin as [Hin _]. now apply Hall.
  - intros task current_user Hne. rewrite create_task_handler_unfold.
    destruct (crud.get_user_by_username _ db) as [user|]; [|exact Hall].
    cbn [snd tasks]. apply List.Forall_app. split; [exact Hall|].
    constructor; [|constructor].
    eapply (create_task_invariant env (User.id user) task db); [exact Hne|].
    reflexivity.
Qed.

Lemma store_keeps_completed_at_invariant_witness :
  Forall completed_at_invariant (tasks sample.db_tasks)
  /\ Forall completed_at_invariant (tasks sample.db_one_completed).
Proof.
  assert (Hall : Forall completed_at_invariant (tasks sample.db_tasks)).
  { repeat constructor; cbn; try (intros [? [=]]); discriminate. }
  split; [exact Hall|].
  apply (store_keeps_completed_at_invariant sample.env1 sample.db_tasks Hall).
Defined.

(** ** The summary when every task has a status *)

(** X19: for an owner none of whose tasks holds a null status, the summary
    satisfies [total_tasks = todo_tasks + in_progress_tasks +
    completed_tasks]; and for every owner, whatever the statuses, the
    completion rate lies between 0 and 100 and no counter is negative. *)
Theorem summary_consistent user_id db :
  exists s,
    crud.get_task_summary user_id db = Return s
    /\ ((forall t, In t (tasks db) -> Task.user_id t = user_id ->
                   Task.status t <> None) ->
        TaskSummary.total_tasks s
        = TaskSummary.todo_tasks s + TaskSummary.in_progress_tasks s
          + TaskSummary.completed_tasks s)
    /\ TaskSummary.todo_tasks s + TaskSummary.in_progress_tasks s
       + TaskSummary.completed_tasks s <= TaskSummary.total_tasks s
    /\ 0 <= TaskSummary.todo_tasks s
    /\ 0 <= TaskSummary.in_progress_tasks s
    /\ 0 <= TaskSummary.completed_tasks s
    /\ exists r,
        TaskSummary.completion_rate s = Finite r
        /\ (0 <= r)%Q
        /\ (r <= inject_Z 100)%Q.
Proof.
  destruct (summary_counters user_id db) as (s & E & _ & Hc & Hi & Ht).
  exists s. split; [exact E|].
  split; [intros Hst; now apply (summary_total_sum user_id db s Hst)|].
  pose proof (summary_total_split user_id db s E) as Hsplit.
  pose proof (count_rows_nonneg (owned_with_status user_id None) (tasks db)).
  pose proof (count_rows_nonneg (owned_with_status user_id (Some COMPLETED)) (tasks db)).
  pose proof (count_rows_nonneg (owned_with_status user_id (Some IN_PROGRESS)) (tasks db)).
  pose proof (count_rows_nonneg (owned_with_status user_id (Some TODO)) (tasks db)).
  split; [lia|]. split; [lia|]. split; [lia|]. split; [lia|].
  exact (summary_rate_bounds user_id db s E).
Qed.

Lemma summary_consistent_witness :
  exists s,
    crud.get_task_summary 1 sample.db_one_completed = Return s
    /\ TaskSummary.total_tasks s
       = TaskSummary.todo_tasks s + TaskSummary.in_progress_tasks s
         + TaskSummary.completed_tasks s.
Proof.
  destruct (summary_consistent 1 sample.db_one_completed) as (s & E & Hsum & _).
  exists s. split; [exact E|]. apply Hsum.
  intros t [<- | [<- | []]] _; discriminate.
Defined.

(** ** Users looked up in the table *)

Lemma get_user_by_username_found db user :
  List.NoDup (map User.username (users db)) -> In user (users db) ->
  crud.get_user_by_username (Some (User.username user)) db = Some user.
Proof.
  intros Hnd Hin.
  destruct (crud.get_user_by_username (Some (User.username user)) db)
    as [u|] eqn:E.
  - apply get_user_by_username_Some in E as [Hu Heq].
    now rewrite (NoDup_map_In_inj User.username (users db) u user Hnd Hu Hin Heq).
  - rewrite get_user_by_username_None in E. now destruct (E user Hin).
Qed.

Lemma get_user_by_username_unknown username db :
  (forall user, In user (users db) -> Some (User.username user) <> username) ->
  crud.get_user_by_username username db = None.
Proof.
  intros Hall. destruct username as [name|]; [|reflexivity].
  apply get_user_by_username_None. intros u Hin Heq. apply (Hall u Hin).
  now rewrite Heq.
Qed.

(** C7: with usernames unique in the user table, login returns a bearer
    token, and leaves the store alone, exactly when the table holds a user
    with the supplied username whose stored hash the supplied password
    verifies against; the token is the one issued for that username with the
    configured lifetime.  Any other request fails with 401 "Incorrect
    username or password", the same for a username no user has as for a
    wrong password. *)
Theorem login_spec `{Hasher} `{security.Signer} settings env username password db :
  List.NoDup (map User.username (users db)) ->
  (forall token db',
      main.login settings env username password db = (Return token, db')
      <-> (exists user,
              In user (users db)
              /\ User.username user = username
              /\ verify_password password (User.hashed_password user) = true)
          /\ token = Token.mk
                       (security.create_access_token
                          (Settings.secret_key settings) username
                          (timedelta_minutes
                             (Settings.access_token_expire_minutes settings))
                          (utcnow env))
                       "bearer"
          /\ db' = db)
  /\ ((forall user, In user (users db) -> User.username user <> username) ->
      main.login settings env username password db
      = (Raise (HTTPException 401 "Incorrect username or password"), db))
  /\ (forall user,
      In user (users db) -> User.username user = username ->
      verify_password password (User.hashed_password user) = false ->
      main.login settings env username password db
      = (Raise (HTTPException 401 "Incorrect username or password"), db))
  /\ ((exists token, main.login settings env username password db
                     = (Return token, db))
      \/ main.login settings env username password db
         = (Raise (HTTPException 401 "Incorrect username or password"), db)).
Proof.
  intros Hnd. unfold main.login. rewrite bind_query.
  destruct (crud.get_user_by_username (Some username) db) as [user|] eqn:E.
  - pose proof E as E'. apply get_user_by_username_Some in E' as [Hin Hname].
    assert (Huniq : forall u, In u (users db) -> User.username u = username ->
                              u = user).
    { intros u Hu Heq.
      apply (NoDup_map_In_inj User.username (users db) u user Hnd Hu Hin).
      congruence. }
    rewrite Hname.
    destruct (verify_password password (User.hashed_password user)) eqn:V;
      cbn [negb]; unfold ret, raise.
    + split; [|split; [|split]].
      * intros token db'. split.
        -- intros [= <- <-]. split; [|auto]. exists user. auto.
        -- intros (_ & -> & ->). reflexivity.
      * intros Hnone. now destruct (Hnone user Hin).
      * intros u Hu Heq Hv. rewrite (Huniq u Hu Heq) in Hv. congruence.
      * left. eauto.
    + split; [|split; [|split]].
      * intros token db'. split; [discriminate|].
        intros ((u & Hu & Heq & Hv) & _). rewrite (Huniq u Hu Heq) in Hv.
        congruence.
      * reflexivity.
      * reflexivity.
      * right. reflexivity.
  - rewrite get_user_by_username_None in E. unfold raise.
    split; [|split; [|split]].
    + intros token db'. split; [discriminate|].
      intros ((u & Hu & Heq & _) & _). now destruct (E u Hu).
    + reflexivity.
    + reflexivity.
    + right. reflexivity.
Qed.

Lemma login_spec_witness :
  List.NoDup (map User.username (users sample.db_users))
  /\ main.login (H:=sample.hasher) (H0:=sample.signer) Settings.default sample.env1
       "alice" "password123" sample.db_users
     = (Return (Token.mk
                  (security.create_access_token (H:=sample.signer)
                     (Settings.secret_key Settings.default) "alice"
                     (timedelta_minutes
                        (Settings.access_token_expire_minutes Settings.default))
                     (utcnow sample.env1))
                  "bearer"),
        sample.db_users)
  /\ main.login (H:=sample.hasher) (H0:=sample.signer) Settings.default sample.env1
       "mallory" "password123" sample.db_users
     = (Raise (HTTPException 401 "Incorrect username or password"), sample.db_users)
  /\ main.login (H:=sample.hasher) (H0:=sample.signer) Settings.default sample.env1
       "alice" "wrong" sample.db_users
     = (Raise (HTTPException 401 "Incorrect username or password"), sample.db_users).
Proof.
  assert (Hnd : List.NoDup (map User.username (users sample.db_users))).
  { cbn. repeat constructor; cbn;
      intros Hin; repeat (destruct Hin as [Hin|Hin]; try discriminate Hin);
      contradiction. }
  split; [exact Hnd|]. split; [|split].
  - destruct (login_spec (H:=sample.hasher) (H0:=sample.signer) Settings.default
                sample.env1 "alice" "password123" sample.db_users Hnd)
      as (Hiff & _).
    apply Hiff. split; [|split; reflexivity].
    exists sample.alice_row.
    split; [left; reflexivity | split; reflexivity].
  - destruct (login_spec (H:=sample.hasher) (H0:=sample.signer) Settings.default
                sample.env1 "mallory" "password123" sample.db_users Hnd)
      as (_ & Hunknown & _).
    apply Hunknown. intros u [<- | [<- | []]]; discriminate.
  - destruct (login_spec (H:=sample.hasher) (H0:=sample.signer) Settings.default
                sample.env1 "alice" "wrong" sample.db_users Hnd)
      as (_ & _ & Hwrong & _).
    apply (Hwrong sample.alice_row); [left; reflexivity | reflexivity | reflexivity].
Defined.

(** ** Creating a task, against the user table *)

(** X16: [POST /tasks] fails only with 404 "User not found", when no user of
    the table has the token's username, and then stores nothing.  With
    usernames unique, a request whose token names a user of the table always
    succeeds: the response never fails validation, it carries the body's
    fields, that user's id as owner, a null [completed_at] and an id no task
    of a well-formed store has, and the store gains exactly the row the
    response shows. *)
Theorem create_task_outcome env task current_user db :
  ((forall user, In user (users db) ->
                 Some (User.username user) <> TokenData.username current_user) ->
   main.create_task env task current_user db
   = (Raise (HTTPException 404 "User not found"), db))
  /\ (forall user,
      List.NoDup (map User.username (users db)) ->
      In user (users db) ->
      TokenData.username current_user = Some (User.username user) ->
      exists r db',
        main.create_task env task current_user db = (Return r, db')
        /\ TaskResponse.title r = TaskCreate.title task
        /\ TaskResponse.description r = TaskCreate.description task
        /\ TaskResponse.status r = TaskCreate.status task
        /\ TaskResponse.priority r = TaskCreate.priority task
        /\ TaskResponse.due_date r = TaskCreate.due_date task
        /\ TaskResponse.user_id r = User.id user
        /\ TaskResponse.completed_at r = None
        /\ (wf_db db -> forall t, In t (tasks db) -> Task.id t <> TaskResponse.id r)
        /\ tasks db' = tasks db ++ [row_of r]
        /\ users db' = users db)
  /\ (forall e db',
      main.create_task env task current_user db = (Raise e, db') ->
      e = HTTPException 404 "User not found" /\ db' = db).
Proof.
  rewrite create_task_handler_unfold. split; [|split].
  - intros Hnone. now rewrite (get_user_by_username_unknown _ db Hnone).
  - intros user Hnd Hin ->. rewrite (get_user_by_username_found db user Hnd Hin).
    cbn zeta. eexists _, _. split; [reflexivity|].
    cbn. repeat split.
    intros (_ & Htb & _) t Hin'. rewrite List.Forall_forall in Htb.
    specialize (Htb t Hin'). lia.
  - intros e db'.
    destruct (crud.get_user_by_username _ db); [discriminate|].
    now intros [= <- <-].
Qed.

Lemma create_task_outcome_witness :
  main.create_task sample.env1 (sample.task_T TODO) sample.ghost_token
    sample.db_tasks
  = (Raise (HTTPException 404 "User not found"), sample.db_tasks)
  /\ exists r db',
      main.create_task sample.env1 (sample.task_T IN_PROGRESS) sample.alice_token
        sample.db_tasks = (Return r, db')
      /\ TaskResponse.status r = IN_PROGRESS
      /\ TaskResponse.user_id r = 1
      /\ tasks db' = tasks sample.db_tasks ++ [row_of r].
Proof.
  split.
  - apply (create_task_outcome sample.env1 (sample.task_T TODO) sample.ghost_token
             sample.db_tasks).
    intros u [<- | [<- | []]]; discriminate.
  - destruct (create_task_outcome sample.env1 (sample.task_T IN_PROGRESS)
                sample.alice_token sample.db_tasks) as (_ & Hok & _).
    destruct (Hok sample.alice_row) as (r & db' & E & _ & _ & Hs & _ & _ & Hu & _ & _ & Ht & _).
    + cbn. repeat constructor; cbn;
        intros Hin; repeat (destruct Hin as [Hin|Hin]; try discriminate Hin);
        contradiction.
    + left. reflexivity.
    + reflexivity.
    + exists r, db'. auto.
Defined.
